(** * Tracking result classes of [simplecv/tracking/track_class.py]

    A shallow embedding of the [Track] class hierarchy ([Track],
    [CAMShiftTrack], [LKTrack], [SURFTrack], [MFTrack]) and of the parts of
    the Python runtime these classes lean on: exceptions, objects whose
    attributes exist only once they have been assigned, the shared frame
    image with its drawing layer, and the [%] string formatting operator.

    Conventions.
    - Integers are [Z]. Bounding boxes are tuples of integers, as
      [SURFTrack] builds them with [int(...)].
    - A finite floating point value is represented by the rational number
      it denotes ([Q]). Comparison, truncation by [int] and decimal
      formatting are exact on such values. [/] between integers is true
      division and [+] between an integer and a float is float addition:
      both yield a double, that is the exact result rounded to 53
      significant bits, ties to even ([round53]). The exponent range of a
      double is not modelled: an integer of magnitude [2^1024] or more, for
      which the interpreter raises [OverflowError] in such an operation, is
      outside this representation.
    - An attribute of an object is [None] until the constructor (or the
      caller) assigns it; reading an unassigned attribute raises
      [AttributeError]. Python's own [None] value is [PyNone].
    - The constructors, the accessors, the five text overlays and
      [drawTrackerPoints] are embedded, and so are the markers [draw],
      [drawPredicted], [drawCorrected] and the overlays of the predicted
      and corrected point. [drawBB] is a single call of the rectangle
      primitive and is left out. *)

From Stdlib Require Import Ascii String.
From stdpp Require Import gmap strings pretty.
From Stdlib Require Import QArith Qround.

Local Open Scope Z_scope.

(** ** Exceptions and results *)

Inductive PyExn : Type :=
| AttributeError
| ValueError
| TypeError
| IndexError
| OverflowError
| cv2_error.

Inductive PyResult (A : Type) : Type :=
| Ok (a : A)
| Raise (e : PyExn).

Arguments Ok {A} a.
Arguments Raise {A} e.

#[global] Instance PyResult_ret : MRet PyResult := fun A a => Ok a.
#[global] Instance PyResult_bind : MBind PyResult := fun A B f m =>
  match m with
  | Ok a => f a
  | Raise e => Raise e
  end.

(** A value that may be Python's [None]. *)
Inductive PyOpt (A : Type) : Type :=
| PyNone
| PyVal (a : A).

Arguments PyNone {A}.
Arguments PyVal {A} a.

(** [x is None] *)
Definition is_None {A} (v : PyOpt A) : bool :=
  match v with
  | PyNone => true
  | PyVal _ => false
  end.

(** Reading [obj.name]. *)
Definition getattr {A} (slot : option A) : PyResult A :=
  match slot with
  | Some v => Ok v
  | None => Raise AttributeError
  end.

(** ** Numbers, points and opaque payloads *)

Inductive PyNum : Type :=
| PyInt (z : Z)
| PyFloat (q : Q).

(** [int(q)] on a float: truncation toward zero. *)
Definition py_int (q : Q) : Z := Z.quot (Qnum q) (Z.pos (Qden q)).

(** The integer nearest to [z] among those with at most 53 significant
    bits, ties to the even significand: the value of [float(z)]. *)
Definition round53 (z : Z) : Z :=
  let a := Z.abs z in
  let nbits := Z.log2 a + 1 in
  if nbits <=? 53 then z
  else
    let shift := nbits - 53 in
    let q := Z.shiftr a shift in
    let r := a - Z.shiftl q shift in
    let half := Z.shiftl 1 (shift - 1) in
    let q' := if r <? half then q
              else if half <? r then q + 1
              else if Z.even q then q else q + 1 in
    let m := Z.shiftl q' shift in
    if z <? 0 then - m else m.

(** The double nearest to a rational written over a power of two. *)
Definition round_double (q : Q) : Q := round53 (Qnum q) # Qden q.

(** [w / 2] for an integer [w] (true division): the double nearest to
    half of [w]. *)
Definition halve (w : Z) : Q := round_double (w # 2).

(** [x + f] for an integer [x] and a float [f]: [x] is converted to the
    nearest double, then the two are added and the sum is rounded. *)
Definition add_int_float (x : Z) (f : Q) : Q :=
  round_double (inject_Z (round53 x) + f).

(** A 2D point with floating point coordinates ([cv2.KeyPoint.pt], a row of
    an [N x 2] array). *)
Definition Point : Type := Q * Q.

(** [cv2.KeyPoint]; only [pt] is read by this module. *)
Record KeyPoint : Type := { pt : Point; size : Q; angle : Q }.

(** Objects that are only passed through are named by their identity. *)
Definition ObjRef : Type := positive.

(** A descriptor matrix ([numpy.ndarray]). *)
Definition ndarray : Type := list (list Q).

(** [simplecv.color.Color] is not part of this file; colours are RGB
    triples and [GREEN] is the library's fixed green. *)
Definition Color : Type := (Z * Z * Z)%type.
Definition GREEN : Color := (0, 255, 0).

(** An argument left out of a call takes the default of the signature. *)
Definition or_default {A} (d : A) (arg : option A) : A :=
  match arg with
  | Some v => v
  | None => d
  end.

(** ** The [%] formatting operator

    The overlay helpers build their text with [template % args]. Only the
    conversions this module writes are interpreted: [%d], [%f], [%.Nf] and
    the escape [%%]; any other directive is rejected. *)

Module Format.

(** [str(z)] *)
Definition str_int (z : Z) : string := pretty z.

(** [float(z)]: exact up to 53 significant bits, otherwise rounded to the
    nearest representable value, ties to even; too large a magnitude
    raises [OverflowError]. *)
Definition float_of_int (z : Z) : PyResult Q :=
  let a := Z.abs z in
  let nbits := Z.log2 a + 1 in
  if nbits <=? 53 then Ok (inject_Z z)
  else
    let shift := nbits - 53 in
    let q := Z.shiftr a shift in
    let r := a - Z.shiftl q shift in
    let half := Z.shiftl 1 (shift - 1) in
    let q' := if r <? half then q
              else if half <? r then q + 1
              else if Z.even q then q else q + 1 in
    let m := Z.shiftl q' shift in
    if 2 ^ 1024 <=? m then Raise OverflowError
    else Ok (inject_Z (if z <? 0 then - m else m)).

Fixpoint zeros (n : nat) : string :=
  match n with
  | O => EmptyString
  | S k => String "0"%char (zeros k)
  end.

(** Fixed notation with [prec] decimals, correctly rounded (ties to even
    on the exact value). *)
Definition fixed (prec : nat) (q : Q) : string :=
  let scale := 10 ^ Z.of_nat prec in
  let a := Z.abs (Qnum q) * scale in
  let d := Z.pos (Qden q) in
  let k := a / d in
  let r := a mod d in
  let n := if 2 * r <? d then k
           else if d <? 2 * r then k + 1
           else if Z.even k then k else k + 1 in
  let ip := str_int (n / scale) in
  let fp := str_int (n mod scale) in
  let sign := if Qnum q <? 0 then "-" else "" in
  match prec with
  | O => sign +:+ ip
  | S _ => sign +:+ ip +:+ "." +:+ zeros (prec - String.length fp) +:+ fp
  end.

Inductive conv : Type :=
| conv_d
| conv_f (prec : nat).

Definition convert (c : conv) (v : PyNum) : PyResult string :=
  match c, v with
  | conv_d, PyInt z => Ok (str_int z)
  | conv_d, PyFloat q => Ok (str_int (py_int q))
  | conv_f p, PyFloat q => Ok (fixed p q)
  | conv_f p, PyInt z => q ← float_of_int z; Ok (fixed p q)
  end.

(** Where the scanner stands inside the template. *)
Inductive mode : Type :=
| in_text
| after_percent
| in_precision (n : nat).

Definition digit_of (c : ascii) : option nat :=
  let n := nat_of_ascii c in
  if bool_decide (48 ≤ n ≤ 57)%nat then Some (n - 48)%nat else None.

Definition emit (c : conv) (args : list PyNum)
    (k : list PyNum → PyResult string) : PyResult string :=
  match args with
  | [] => Raise TypeError
  | v :: rest => s ← convert c v; t ← k rest; Ok (s +:+ t)
  end.

Fixpoint scan (m : mode) (tpl : string) (args : list PyNum)
    : PyResult string :=
  match tpl with
  | EmptyString =>
      match m with
      | in_text =>
          match args with
          | [] => Ok EmptyString
          | _ :: _ => Raise TypeError
          end
      | _ => Raise ValueError
      end
  | String c rest =>
      match m with
      | in_text =>
          if Ascii.eqb c "%"%char then scan after_percent rest args
          else t ← scan in_text rest args; Ok (String c t)
      | after_percent =>
          if Ascii.eqb c "d"%char then emit conv_d args (scan in_text rest)
          else if Ascii.eqb c "f"%char then emit (conv_f 6) args (scan in_text rest)
          else if Ascii.eqb c "."%char then scan (in_precision 0) rest args
          else if Ascii.eqb c "%"%char then
            t ← scan in_text rest args; Ok (String c t)
          else Raise ValueError
      | in_precision n =>
          match digit_of c with
          | Some d => scan (in_precision (10 * n + d)) rest args
          | None =>
              if Ascii.eqb c "f"%char then emit (conv_f n) args (scan in_text rest)
              else Raise ValueError
          end
      end
  end.

(** [template % args] *)
Definition pyformat (template : string) (args : list PyNum)
    : PyResult string :=
  scan in_text template args.

(** The conversions a template asks for, in order. *)
Fixpoint directives (m : mode) (tpl : string) : list conv :=
  match tpl with
  | EmptyString => []
  | String c rest =>
      match m with
      | in_text =>
          if Ascii.eqb c "%"%char then directives after_percent rest
          else directives in_text rest
      | after_percent =>
          if Ascii.eqb c "d"%char then conv_d :: directives in_text rest
          else if Ascii.eqb c "f"%char then conv_f 6 :: directives in_text rest
          else if Ascii.eqb c "."%char then directives (in_precision 0) rest
          else directives in_text rest
      | in_precision n =>
          match digit_of c with
          | Some d => directives (in_precision (10 * n + d)) rest
          | None =>
              if Ascii.eqb c "f"%char then conv_f n :: directives in_text rest
              else directives in_text rest
          end
      end
  end.

End Format.

(** ** Frame images and their drawing layer

    A track holds a reference to the frame it was built from; the frame is
    shared with the caller, not copied. Frames live in a store indexed by
    object identity. [img.dl()] hands out the drawing layer of the frame,
    and every primitive called on it is appended to that layer. A reference
    that names no frame stands for an object without [size_tuple] and
    [dl]: using it raises [AttributeError]. *)

Inductive DrawCall : Type :=
| circle (center : Point) (radius : Z) (color : Color) (width : Z)
| set_font_size (sz : Z)
| text (s : string) (pos : list Z) (color : Color).

Record Image : Type := {
  size_tuple : Z * Z;
  layer : list DrawCall
}.

Abbreviation Store := (gmap ObjRef Image).

(** Computations that may draw on frames and may raise. What was drawn
    before an exception stays drawn. *)
Definition Py (A : Type) : Type := Store → PyResult A * Store.

#[global] Instance Py_ret : MRet Py := fun A a st => (Ok a, st).
#[global] Instance Py_bind : MBind Py := fun A B f m st =>
  match m st with
  | (Ok a, st') => f a st'
  | (Raise e, st') => (Raise e, st')
  end.

Definition lift {A} (r : PyResult A) : Py A := fun st => (r, st).

(** [img.size_tuple] *)
Definition get_size_tuple (img : ObjRef) : Py (Z * Z) := fun st =>
  match st !! img with
  | Some im => (Ok (size_tuple im), st)
  | None => (Raise AttributeError, st)
  end.

(** [img.dl().prim(...)]: one call on the drawing layer of [img]. *)
Definition dl_call (img : ObjRef) (c : DrawCall) : Py unit := fun st =>
  match st !! img with
  | Some im =>
      (Ok tt, <[img := {| size_tuple := size_tuple im;
                          layer := layer im ++ [c] |}]> st)
  | None => (Raise AttributeError, st)
  end.

(** The drawing calls recorded on a frame. *)
Definition drawn (st : Store) (img : ObjRef) : list DrawCall :=
  match st !! img with
  | Some im => layer im
  | None => []
  end.

(** [for x in xs: body(x)] *)
Fixpoint for_each {A} (xs : list A) (body : A → Py unit) : Py unit :=
  match xs with
  | [] => mret tt
  | x :: rest => body x ≫= λ _, for_each rest body
  end.

(** Python truth values of a tuple and of an integer. *)
Definition truthy_tuple (pos : list Z) : bool :=
  match pos with
  | [] => false
  | _ :: _ => true
  end.

Definition truthy_int (n : Z) : bool := negb (n =? 0).

(** [if not arg: arg = dflt], for an argument whose own default is [None]. *)
Definition if_not {A} (truthy : A → bool) (arg : PyOpt A) (dflt : Py A)
    : Py A :=
  match arg with
  | PyVal v => if truthy v then mret v else dflt
  | PyNone => dflt
  end.

(** [t[i]] on a tuple. *)
Definition index (t : list Z) (i : nat) : PyResult Z :=
  match t !! i with
  | Some v => Ok v
  | None => Raise IndexError
  end.

(** A number handed to the drawing layer as a coordinate is recorded by
    its value. *)
Definition num_value (n : PyNum) : Q :=
  match n with
  | PyInt z => inject_Z z
  | PyFloat q => q
  end.

(** ** [class Track] *)

Module Track.

(** The attributes an instance can carry; each is absent until assigned. *)
Record t : Type := {
  bb : option (list Z);
  image : option (ObjRef);
  bb_x : option (Z);
  bb_y : option (Z);
  w : option (Z);
  h : option (Z);
  x : option (Q);
  y : option (Q);
  center : option (Q * Q);
  sizeRatio : option (PyNum);
  vel : option (PyNum * PyNum);
  rt_vel : option (PyNum * PyNum);
  time : option (Q);
  cv2numpy : option (ObjRef);
  predict_pt : option (PyNum * PyNum);
  state_pt : option (PyNum * PyNum)
}.

(** An instance before [__init__] has run. *)
Definition new : t :=
  {| bb := None; image := None; bb_x := None; bb_y := None; w := None; h :=
     None; x := None; y := None; center := None; sizeRatio := None; vel :=
     None; rt_vel := None; time := None; cv2numpy := None; predict_pt := None;
     state_pt := None |}.

(** [self.name = v] *)
Definition set_bb v (self : t) : t :=
  {| bb := Some v; image := image self; bb_x := bb_x self; bb_y := bb_y self;
     w := w self; h := h self; x := x self; y := y self; center := center
     self; sizeRatio := sizeRatio self; vel := vel self; rt_vel := rt_vel
     self; time := time self; cv2numpy := cv2numpy self; predict_pt :=
     predict_pt self; state_pt := state_pt self |}.
Definition set_image v (self : t) : t :=
  {| bb := bb self; image := Some v; bb_x := bb_x self; bb_y := bb_y self; w
     := w self; h := h self; x := x self; y := y self; center := center self;
     sizeRatio := sizeRatio self; vel := vel self; rt_vel := rt_vel self;
     time := time self; cv2numpy := cv2numpy self; predict_pt := predict_pt
     self; state_pt := state_pt self |}.
Definition set_bb_x v (self : t) : t :=
  {| bb := bb self; image := image self; bb_x := Some v; bb_y := bb_y self; w
     := w self; h := h self; x := x self; y := y self; center := center self;
     sizeRatio := sizeRatio self; vel := vel self; rt_vel := rt_vel self;
     time := time self; cv2numpy := cv2numpy self; predict_pt := predict_pt
     self; state_pt := state_pt self |}.
Definition set_bb_y v (self : t) : t :=
  {| bb := bb self; image := image self; bb_x := bb_x self; bb_y := Some v; w
     := w self; h := h self; x := x self; y := y self; center := center self;
     sizeRatio := sizeRatio self; vel := vel self; rt_vel := rt_vel self;
     time := time self; cv2numpy := cv2numpy self; predict_pt := predict_pt
     self; state_pt := state_pt self |}.
Definition set_w v (self : t) : t :=
  {| bb := bb self; image := image self; bb_x := bb_x self; bb_y := bb_y
     self; w := Some v; h := h self; x := x self; y := y self; center :=
     center self; sizeRatio := sizeRatio self; vel := vel self; rt_vel :=
     rt_vel self; time := time self; cv2numpy := cv2numpy self; predict_pt :=
     predict_pt self; state_pt := state_pt self |}.
Definition set_h v (self : t) : t :=
  {| bb := bb self; image := image self; bb_x := bb_x self; bb_y := bb_y
     self; w := w self; h := Some v; x := x self; y := y self; center :=
     center self; sizeRatio := sizeRatio self; vel := vel self; rt_vel :=
     rt_vel self; time := time self; cv2numpy := cv2numpy self; predict_pt :=
     predict_pt self; state_pt := state_pt self |}.
Definition set_x v (self : t) : t :=
  {| bb := bb self; image := image self; bb_x := bb_x self; bb_y := bb_y
     self; w := w self; h := h self; x := Some v; y := y self; center :=
     center self; sizeRatio := sizeRatio self; vel := vel self; rt_vel :=
     rt_vel self; time := time self; cv2numpy := cv2numpy self; predict_pt :=
     predict_pt self; state_pt := state_pt self |}.
Definition set_y v (self : t) : t :=
  {| bb := bb self; image := image self; bb_x := bb_x self; bb_y := bb_y
     self; w := w self; h := h self; x := x self; y := Some v; center :=
     center self; sizeRatio := sizeRatio self; vel := vel self; rt_vel :=
     rt_vel self; time := time self; cv2numpy := cv2numpy self; predict_pt :=
     predict_pt self; state_pt := state_pt self |}.
Definition set_center v (self : t) : t :=
  {| bb := bb self; image := image self; bb_x := bb_x self; bb_y := bb_y
     self; w := w self; h := h self; x := x self; y := y self; center := Some
     v; sizeRatio := sizeRatio self; vel := vel self; rt_vel := rt_vel self;
     time := time self; cv2numpy := cv2numpy self; predict_pt := predict_pt
     self; state_pt := state_pt self |}.
Definition set_sizeRatio v (self : t) : t :=
  {| bb := bb self; image := image self; bb_x := bb_x self; bb_y := bb_y
     self; w := w self; h := h self; x := x self; y := y self; center :=
     center self; sizeRatio := Some v; vel := vel self; rt_vel := rt_vel
     self; time := time self; cv2numpy := cv2numpy self; predict_pt :=
     predict_pt self; state_pt := state_pt self |}.
Definition set_vel v (self : t) : t :=
  {| bb := bb self; image := image self; bb_x := bb_x self; bb_y := bb_y
     self; w := w self; h := h self; x := x self; y := y self; center :=
     center self; sizeRatio := sizeRatio self; vel := Some v; rt_vel :=
     rt_vel self; time := time self; cv2numpy := cv2numpy self; predict_pt :=
     predict_pt self; state_pt := state_pt self |}.
Definition set_rt_vel v (self : t) : t :=
  {| bb := bb self; image := image self; bb_x := bb_x self; bb_y := bb_y
     self; w := w self; h := h self; x := x self; y := y self; center :=
     center self; sizeRatio := sizeRatio self; vel := vel self; rt_vel :=
     Some v; time := time self; cv2numpy := cv2numpy self; predict_pt :=
     predict_pt self; state_pt := state_pt self |}.
Definition set_time v (self : t) : t :=
  {| bb := bb self; image := image self; bb_x := bb_x self; bb_y := bb_y
     self; w := w self; h := h self; x := x self; y := y self; center :=
     center self; sizeRatio := sizeRatio self; vel := vel self; rt_vel :=
     rt_vel self; time := Some v; cv2numpy := cv2numpy self; predict_pt :=
     predict_pt self; state_pt := state_pt self |}.
Definition set_cv2numpy v (self : t) : t :=
  {| bb := bb self; image := image self; bb_x := bb_x self; bb_y := bb_y
     self; w := w self; h := h self; x := x self; y := y self; center :=
     center self; sizeRatio := sizeRatio self; vel := vel self; rt_vel :=
     rt_vel self; time := time self; cv2numpy := Some v; predict_pt :=
     predict_pt self; state_pt := state_pt self |}.
Definition set_predict_pt v (self : t) : t :=
  {| bb := bb self; image := image self; bb_x := bb_x self; bb_y := bb_y
     self; w := w self; h := h self; x := x self; y := y self; center :=
     center self; sizeRatio := sizeRatio self; vel := vel self; rt_vel :=
     rt_vel self; time := time self; cv2numpy := cv2numpy self; predict_pt :=
     Some v; state_pt := state_pt self |}.
Definition set_state_pt v (self : t) : t :=
  {| bb := bb self; image := image self; bb_x := bb_x self; bb_y := bb_y
     self; w := w self; h := h self; x := x self; y := y self; center :=
     center self; sizeRatio := sizeRatio self; vel := vel self; rt_vel :=
     rt_vel self; time := time self; cv2numpy := cv2numpy self; predict_pt :=
     predict_pt self; state_pt := Some v |}.

(** [a, b, c, d = bb] *)
Definition unpack4 (bb : list Z) : PyResult (Z * Z * Z * Z) :=
  match bb with
  | [a; b; c; d] => Ok (a, b, c, d)
  | _ => Raise ValueError
  end.

Definition getCenter (self : t) : PyResult (Q * Q) :=
  bx ← getattr (bb_x self);
  w_ ← getattr (w self);
  by_ ← getattr (bb_y self);
  h_ ← getattr (h self);
  Ok (add_int_float bx (halve w_), add_int_float by_ (halve h_)).

(** [clock] is the reading [time.time()] returns during the call. *)
Definition __init__ (clock : Q) (self : t) (img : ObjRef) (bb : list Z)
    : PyResult t :=
  let self := set_bb bb self in
  let self := set_image img self in
  bb' ← getattr (Track.bb self);
  '(a, b, c, d) ← unpack4 bb';
  let self := set_h d (set_w c (set_bb_y b (set_bb_x a self))) in
  cen ← getCenter self;
  let self := set_y cen.2 (set_x cen.1 self) in
  let self := set_center cen self in
  let self := set_sizeRatio (PyInt 1) self in
  let self := set_vel (PyInt 0, PyInt 0) self in
  let self := set_rt_vel (PyInt 0, PyInt 0) self in
  let self := set_time clock self in
  img' ← getattr (image self);
  let self := set_cv2numpy img' self in
  let self := set_predict_pt (PyInt 0, PyInt 0) self in
  let self := set_state_pt (PyInt 0, PyInt 0) self in
  Ok self.

(** [Track(img, bb)] *)
Definition Track (clock : Q) (img : ObjRef) (bb : list Z) : PyResult t :=
  __init__ clock new img bb.

Definition area (self : t) : PyResult Z :=
  w_ ← getattr (w self);
  h_ ← getattr (h self);
  Ok (w_ * h_).

Definition getImage (self : t) : PyResult ObjRef := getattr (image self).

Definition getBB (self : t) : PyResult (list Z) := getattr (bb self).

Definition showCoordinates (self : t) (pos : PyOpt (list Z))
    (color : option Color) (size : PyOpt Z) : Py unit :=
  let color := or_default GREEN color in
  let f := self in
  img ← lift (getattr (image f));
  pos ← if_not truthy_tuple pos
          (imgsize ← get_size_tuple img; mret [imgsize.1 - 120; 10]);
  size ← if_not truthy_int size (mret 16);
  fx ← lift (getattr (x f));
  fy ← lift (getattr (y f));
  txt ← lift (Format.pyformat "x = %d  y = %d" [PyFloat fx; PyFloat fy]);
  dl_call img (set_font_size size);;
  dl_call img (text txt pos color).

Definition showSizeRatio (self : t) (pos : PyOpt (list Z))
    (color : option Color) (size : PyOpt Z) : Py unit :=
  let color := or_default GREEN color in
  let f := self in
  img ← lift (getattr (image f));
  pos ← if_not truthy_tuple pos
          (imgsize ← get_size_tuple img; mret [imgsize.1 - 120; 30]);
  size ← if_not truthy_int size (mret 16);
  ratio ← lift (getattr (sizeRatio f));
  txt ← lift (Format.pyformat "size = %f" [ratio]);
  dl_call img (set_font_size size);;
  dl_call img (text txt pos color).

Definition showPixelVelocity (self : t) (pos : PyOpt (list Z))
    (color : option Color) (size : PyOpt Z) : Py unit :=
  let color := or_default GREEN color in
  let f := self in
  img ← lift (getattr (image f));
  vel ← lift (getattr (vel f));
  pos ← if_not truthy_tuple pos
          (imgsize ← get_size_tuple img; mret [imgsize.1 - 120; 90]);
  size ← if_not truthy_int size (mret 16);
  txt ← lift (Format.pyformat "Vx = %.2f Vy = %.2f" [vel.1; vel.2]);
  dl_call img (set_font_size size);;
  dl_call img (text txt pos color);;
  p0 ← lift (index pos 0);
  p1 ← lift (index pos 1);
  dl_call img (text "in pixels/frame" [p0; p1 + size] color).

Definition showPixelVelocityRT (self : t) (pos : PyOpt (list Z))
    (color : option Color) (size : PyOpt Z) : Py unit :=
  let color := or_default GREEN color in
  let f := self in
  img ← lift (getattr (image f));
  vel_rt ← lift (getattr (rt_vel f));
  pos ← if_not truthy_tuple pos
          (imgsize ← get_size_tuple img; mret [imgsize.1 - 120; 50]);
  size ← if_not truthy_int size (mret 16);
  txt ← lift (Format.pyformat "Vx = %.2f Vy = %.2f" [vel_rt.1; vel_rt.2]);
  dl_call img (set_font_size size);;
  dl_call img (text txt pos color);;
  p0 ← lift (index pos 0);
  p1 ← lift (index pos 1);
  dl_call img (text "in pixels/second" [p0; p1 + size] color).

(** [func] is any function of the caller's; [R] is whatever it returns. *)
Definition processTrack {R} (self : t) (func : ObjRef → R) : PyResult R :=
  img ← getattr (image self);
  Ok (func img).

Definition getPredictionPoints (self : t) : PyResult (PyNum * PyNum) :=
  getattr (predict_pt self).

Definition getCorrectedPoints (self : t) : PyResult (PyNum * PyNum) :=
  getattr (state_pt self).

Definition draw (self : t) (color : option Color) (rad thickness : option Z)
    : Py unit :=
  let color := or_default GREEN color in
  let rad := or_default 1 rad in
  let thickness := or_default 1 thickness in
  let f := self in
  img ← lift (getattr (image f));
  cen ← lift (getattr (center f));
  dl_call img (circle cen rad color thickness).

Definition drawPredicted (self : t) (color : option Color)
    (rad thickness : option Z) : Py unit :=
  let color := or_default GREEN color in
  let rad := or_default 1 rad in
  let thickness := or_default 1 thickness in
  let f := self in
  img ← lift (getattr (image f));
  p ← lift (getattr (predict_pt f));
  dl_call img (circle (num_value p.1, num_value p.2) rad color thickness).

Definition showPredictedCoordinates (self : t) (pos : PyOpt (list Z))
    (color : option Color) (size : PyOpt Z) : Py unit :=
  let color := or_default GREEN color in
  let f := self in
  img ← lift (getattr (image f));
  pos ← if_not truthy_tuple pos
          (imgsize ← get_size_tuple img; mret [5; 10]);
  size ← if_not truthy_int size (mret 16);
  p ← lift (getattr (predict_pt f));
  txt ← lift (Format.pyformat "Predicted: x = %d  y = %d" [p.1; p.2]);
  dl_call img (set_font_size size);;
  dl_call img (text txt pos color).

Definition showCorrectedCoordinates (self : t) (pos : PyOpt (list Z))
    (color : option Color) (size : PyOpt Z) : Py unit :=
  let color := or_default GREEN color in
  let f := self in
  img ← lift (getattr (image f));
  pos ← if_not truthy_tuple pos
          (imgsize ← get_size_tuple img; mret [5; 40]);
  size ← if_not truthy_int size (mret 16);
  p ← lift (getattr (state_pt f));
  txt ← lift (Format.pyformat "Corrected: x = %d  y = %d" [p.1; p.2]);
  dl_call img (set_font_size size);;
  dl_call img (text txt pos color).

Definition drawCorrected (self : t) (color : option Color)
    (rad thickness : option Z) : Py unit :=
  let color := or_default GREEN color in
  let rad := or_default 1 rad in
  let thickness := or_default 1 thickness in
  let f := self in
  img ← lift (getattr (image f));
  p ← lift (getattr (state_pt f));
  dl_call img (circle (num_value p.1, num_value p.2) rad color thickness).

End Track.

(** ** Builtins and collaborators used by the subclasses *)

(** [max(xs)] and [min(xs)]: the first largest (smallest) element; an
    empty sequence raises [ValueError]. *)
Definition py_max (xs : list Q) : PyResult Q :=
  match xs with
  | [] => Raise ValueError
  | x0 :: rest =>
      Ok (fold_left (λ best v, if Qle_bool v best then best else v) rest x0)
  end.

Definition py_min (xs : list Q) : PyResult Q :=
  match xs with
  | [] => Raise ValueError
  | x0 :: rest =>
      Ok (fold_left (λ best v, if Qle_bool best v then best else v) rest x0)
  end.

(** What [cv2.kmeans] returns: compactness, labels, centers. *)
Definition KMeansResult : Type := (Q * list Z * list Point)%type.

(** An ellipse as [cv2.CamShift] reports it: center, axes, angle. *)
Definition Ellipse : Type := (Point * Point * Q)%type.

(** ** [class CAMShiftTrack(Track)] *)

Module CAMShiftTrack.

Record t : Type := {
  base : Track.t;
  ellipse : option Ellipse
}.

Definition new : t := {| base := Track.new; ellipse := None |}.

Definition __init__ (clock : Q) (self : t) (img : ObjRef) (bb : list Z)
    (ellipse : Ellipse) : PyResult t :=
  b ← Track.__init__ clock (base self) img bb;
  Ok {| base := b; ellipse := Some ellipse |}.

Definition CAMShiftTrack (clock : Q) (img : ObjRef) (bb : list Z)
    (ellipse : Ellipse) : PyResult t :=
  __init__ clock new img bb ellipse.

Definition getEllipse (self : t) : PyResult Ellipse :=
  getattr (ellipse self).

End CAMShiftTrack.

(** ** [class LKTrack(Track)] *)

Module LKTrack.

Record t : Type := {
  base : Track.t;
  pts : option (PyOpt (list Point))
}.

Definition new : t := {| base := Track.new; pts := None |}.

Definition __init__ (clock : Q) (self : t) (img : ObjRef) (bb : list Z)
    (pts : PyOpt (list Point)) : PyResult t :=
  b ← Track.__init__ clock (base self) img bb;
  Ok {| base := b; pts := Some pts |}.

Definition LKTrack (clock : Q) (img : ObjRef) (bb : list Z)
    (pts : PyOpt (list Point)) : PyResult t :=
  __init__ clock new img bb pts.

Definition getTrackedPoints (self : t) : PyResult (PyOpt (list Point)) :=
  getattr (pts self).

Definition drawTrackerPoints (self : t) (color : option Color)
    (radius thickness : option Z) : Py unit :=
  let color := or_default GREEN color in
  let radius := or_default 1 radius in
  let thickness := or_default 1 thickness in
  pts ← lift (getattr (pts self));
  match pts with
  | PyNone => mret tt
  | PyVal points =>
      for_each points (λ pt,
        img ← lift (getattr (Track.image (base self)));
        dl_call img (circle pt radius color thickness))
  end.

End LKTrack.

(** ** [class SURFTrack(Track)] *)

Module SURFTrack.

Record t : Type := {
  base : Track.t;
  pts : option (PyOpt (list Point));
  templateImg : option ObjRef;
  skp : option (list KeyPoint);
  sd : option (PyOpt ndarray);
  tkp : option (list KeyPoint);
  td : option (PyOpt ndarray);
  detector : option ObjRef;
  descriptor : option ObjRef
}.

Definition new : t :=
  {| base := Track.new; pts := None; templateImg := None; skp := None;
     sd := None; tkp := None; td := None; detector := None;
     descriptor := None |}.

Definition set_base (b : Track.t) (self : t) : t :=
  {| base := b; pts := pts self; templateImg := templateImg self;
     skp := skp self; sd := sd self; tkp := tkp self; td := td self;
     detector := detector self; descriptor := descriptor self |}.
Definition set_pts v (self : t) : t :=
  {| base := base self; pts := Some v; templateImg := templateImg self; skp
     := skp self; sd := sd self; tkp := tkp self; td := td self; detector :=
     detector self; descriptor := descriptor self |}.
Definition set_templateImg v (self : t) : t :=
  {| base := base self; pts := pts self; templateImg := Some v; skp := skp
     self; sd := sd self; tkp := tkp self; td := td self; detector :=
     detector self; descriptor := descriptor self |}.
Definition set_skp v (self : t) : t :=
  {| base := base self; pts := pts self; templateImg := templateImg self; skp
     := Some v; sd := sd self; tkp := tkp self; td := td self; detector :=
     detector self; descriptor := descriptor self |}.
Definition set_sd v (self : t) : t :=
  {| base := base self; pts := pts self; templateImg := templateImg self; skp
     := skp self; sd := Some v; tkp := tkp self; td := td self; detector :=
     detector self; descriptor := descriptor self |}.
Definition set_tkp v (self : t) : t :=
  {| base := base self; pts := pts self; templateImg := templateImg self; skp
     := skp self; sd := sd self; tkp := Some v; td := td self; detector :=
     detector self; descriptor := descriptor self |}.
Definition set_td v (self : t) : t :=
  {| base := base self; pts := pts self; templateImg := templateImg self; skp
     := skp self; sd := sd self; tkp := tkp self; td := Some v; detector :=
     detector self; descriptor := descriptor self |}.
Definition set_detector v (self : t) : t :=
  {| base := base self; pts := pts self; templateImg := templateImg self; skp
     := skp self; sd := sd self; tkp := tkp self; td := td self; detector :=
     Some v; descriptor := descriptor self |}.
Definition set_descriptor v (self : t) : t :=
  {| base := base self; pts := pts self; templateImg := templateImg self; skp
     := skp self; sd := sd self; tkp := tkp self; td := td self; detector :=
     detector self; descriptor := Some v |}.

Section Init.

(** [cv2.kmeans] with the fixed settings of the constructor (one cluster,
    at most 10 iterations or epsilon 1, one attempt, random initial
    centers) applied to the points cast to single precision. Its result is
    not a function of this module, so it is a parameter. *)
Variable cv2_kmeans : list Point → PyResult KMeansResult.

Definition __init__ (clock : Q) (self : t) (img : ObjRef)
    (new_pts : list KeyPoint) (detector descriptor templateImg : ObjRef)
    (skp : list KeyPoint) (sd : PyOpt ndarray) (tkp : list KeyPoint)
    (td : PyOpt ndarray) : PyResult t :=
  if is_None td then
    let bb := [1; 1; 1; 1] in
    b ← Track.__init__ clock (base self) img bb;
    Ok (set_base b self)
  else if (length new_pts <? 1)%nat then
    let bb := [1; 1; 1; 1] in
    b ← Track.__init__ clock (base self) img bb;
    let self := set_base b self in
    let self := set_pts PyNone self in
    let self := set_templateImg templateImg self in
    let self := set_skp skp self in
    let self := set_sd sd self in
    let self := set_tkp tkp self in
    let self := set_td td self in
    let self := set_detector detector self in
    let self := set_descriptor descriptor self in
    Ok self
  else if is_None sd then
    let bb := [1; 1; 1; 1] in
    b ← Track.__init__ clock (base self) img bb;
    let self := set_base b self in
    let self := set_pts PyNone self in
    let self := set_templateImg templateImg self in
    let self := set_skp skp self in
    let self := set_sd sd self in
    let self := set_tkp tkp self in
    let self := set_td td self in
    let self := set_detector detector self in
    let self := set_descriptor descriptor self in
    Ok self
  else
    let np_pts := map pt new_pts in
    '(_, _, _) ← cv2_kmeans np_pts;
    max_x ← py_max (map fst np_pts);
    let max_x := py_int max_x in
    min_x ← py_min (map fst np_pts);
    let min_x := py_int min_x in
    max_y ← py_max (map snd np_pts);
    let max_y := py_int max_y in
    min_y ← py_min (map snd np_pts);
    let min_y := py_int min_y in
    let bb := [min_x - 5; min_y - 5; max_x - min_x + 5; max_y - min_y + 5] in
    b ← Track.__init__ clock (base self) img bb;
    let self := set_base b self in
    let self := set_templateImg templateImg self in
    let self := set_skp skp self in
    let self := set_sd sd self in
    let self := set_tkp tkp self in
    let self := set_td td self in
    let self := set_pts (PyVal np_pts) self in
    let self := set_detector detector self in
    let self := set_descriptor descriptor self in
    Ok self.

Definition SURFTrack (clock : Q) (img : ObjRef) (new_pts : list KeyPoint)
    (detector descriptor templateImg : ObjRef) (skp : list KeyPoint)
    (sd : PyOpt ndarray) (tkp : list KeyPoint) (td : PyOpt ndarray)
    : PyResult t :=
  __init__ clock new img new_pts detector descriptor templateImg skp sd tkp
    td.

End Init.

Definition getTrackedPoints (self : t) : PyResult (PyOpt (list Point)) :=
  getattr (pts self).

Definition drawTrackerPoints (self : t) (color : option Color)
    (radius thickness : option Z) : Py unit :=
  let color := or_default GREEN color in
  let radius := or_default 1 radius in
  let thickness := or_default 1 thickness in
  pts ← lift (getattr (pts self));
  match pts with
  | PyNone => mret tt
  | PyVal points =>
      for_each points (λ pt,
        img ← lift (getattr (Track.image (base self)));
        dl_call img (circle pt radius color thickness))
  end.

Definition getDetector (self : t) : PyResult ObjRef :=
  getattr (detector self).

Definition getDescriptor (self : t) : PyResult ObjRef :=
  getattr (descriptor self).

Definition getImageKeyPoints (self : t) : PyResult (list KeyPoint) :=
  getattr (skp self).

Definition getImageDescriptor (self : t) : PyResult (PyOpt ndarray) :=
  getattr (sd self).

Definition getTemplateKeyPoints (self : t) : PyResult (list KeyPoint) :=
  getattr (tkp self).

Definition getTemplateDescriptor (self : t) : PyResult (PyOpt ndarray) :=
  getattr (td self).

Definition getTemplateImage (self : t) : PyResult ObjRef :=
  getattr (templateImg self).

End SURFTrack.

(** ** [class MFTrack(Track)] *)

Module MFTrack.

Record t : Type := {
  base : Track.t;
  shift : option PyNum
}.

Definition new : t := {| base := Track.new; shift := None |}.

Definition __init__ (clock : Q) (self : t) (img : ObjRef) (bb : list Z)
    (shift : PyNum) : PyResult t :=
  b ← Track.__init__ clock (base self) img bb;
  Ok {| base := b; shift := Some shift |}.

Definition MFTrack (clock : Q) (img : ObjRef) (bb : list Z) (shift : PyNum)
    : PyResult t :=
  __init__ clock new img bb shift.

Definition getShift (self : t) : PyResult PyNum := getattr (shift self).

Definition showShift (self : t) (pos : PyOpt (list Z))
    (color : option Color) (size : PyOpt Z) : Py unit :=
  let color := or_default GREEN color in
  let f := self in
  img ← lift (getattr (Track.image (base f)));
  shift ← lift (getattr (shift f));
  pos ← if_not truthy_tuple pos
          (imgsize ← get_size_tuple img; mret [imgsize.1 - 120; 50]);
  size ← if_not truthy_int size (mret 16);
  txt ← lift (Format.pyformat "Shift = %.2f" [shift]);
  dl_call img (set_font_size size);;
  dl_call img (text txt pos color);;
  p0 ← lift (index pos 0);
  p1 ← lift (index pos 1);
  dl_call img (text "in pixels/second" [p0; p1 + size] color).

End MFTrack.

(** * Vocabulary of the properties *)

(** [m] is a smallest, respectively largest, element of [xs]. *)
Definition is_min (m : Q) (xs : list Q) : Prop :=
  In m xs ∧ Forall (λ v, (m <= v)%Q) xs.

Definition is_max (m : Q) (xs : list Q) : Prop :=
  In m xs ∧ Forall (λ v, (v <= m)%Q) xs.

(** The frame store once [calls] have been appended to the drawing layer
    of [img]. *)
Definition draw_on (img : ObjRef) (calls : list DrawCall) (st : Store)
    : Store :=
  match st !! img with
  | Some im =>
      <[img := {| size_tuple := size_tuple im;
                  layer := layer im ++ calls |}]> st
  | None => st
  end.

(** The box [(min_x-5, min_y-5, max_x-min_x+5, max_y-min_y+5)] computed
    on the extents of the coordinates as they are, without [int]. *)
Definition box_of_extents (min_x min_y max_x max_y : Q) : list Q :=
  [min_x - 5; min_y - 5; max_x - min_x + 5; max_y - min_y + 5]%Q.

(** A track nobody has moved yet: both velocities and both estimated points
    are still [(0, 0)], and the two accessors return them. *)
Definition untouched (t : Track.t) : Prop :=
  Track.vel t = Some (PyInt 0, PyInt 0) ∧
  Track.rt_vel t = Some (PyInt 0, PyInt 0) ∧
  Track.predict_pt t = Some (PyInt 0, PyInt 0) ∧
  Track.state_pt t = Some (PyInt 0, PyInt 0) ∧
  Track.getPredictionPoints t = Ok (PyInt 0, PyInt 0) ∧
  Track.getCorrectedPoints t = Ok (PyInt 0, PyInt 0).

(** Arguments of the overlay helpers as a caller gives them: a position is
    a pair or left out, a colour is given or left out. *)
Definition pos_arg (pos : option (Z * Z)) : PyOpt (list Z) :=
  match pos with
  | Some (px, py) => PyVal [px; py]
  | None => PyNone
  end.

(** The position, font size and caption position a helper ends up using. *)
Definition pos_or (pos : option (Z * Z)) (dflt : Z * Z) : list Z :=
  match pos with
  | Some (px, py) => [px; py]
  | None => [dflt.1; dflt.2]
  end.

Definition size_or (size : PyOpt Z) (dflt : Z) : Z :=
  match size with
  | PyVal z => if z =? 0 then dflt else z
  | PyNone => dflt
  end.

Definition caption_pos (pos : option (Z * Z)) (dflt : Z * Z) (dy : Z)
    : list Z :=
  match pos with
  | Some (px, py) => [px; py + dy]
  | None => [dflt.1; dflt.2 + dy]
  end.

(** The integer a [%d] conversion prints for a number. *)
Definition shown_int (n : PyNum) : Z :=
  match n with
  | PyInt z => z
  | PyFloat q => py_int q
  end.

(** [st'] differs from [st] by [calls] appended to the drawing layer of
    [img]: what was drawn before is kept, the frame keeps its size, and no
    other frame is touched. *)
Definition appended (img : ObjRef) (calls : list DrawCall) (st st' : Store)
    : Prop :=
  drawn st' img = drawn st img ++ calls ∧
  (size_tuple <$> st' !! img) = (size_tuple <$> st !! img) ∧
  ∀ img', img' ≠ img → st' !! img' = st !! img'.

(** * Properties *)

(** Runs the embedded code on symbolic integers: everything is unfolded
    except integer arithmetic. *)
Ltac py_eval := cbv -[Z.add Z.sub Z.mul Z.div Z.quot halve add_int_float].

(** ** Float arithmetic on small integers *)

(** An integer of at most 53 bits is a double. *)
Lemma round53_small z : Z.abs z < 2 ^ 53 → round53 z = z.
Proof.
  intros Hz. unfold round53. cbv zeta.
  destruct (Z.leb_spec (Z.log2 (Z.abs z) + 1) 53) as [_ | Hbig]; [done|].
  exfalso. destruct (Z.eq_dec (Z.abs z) 0) as [H0 | H0].
  - rewrite H0 in Hbig. cbn in Hbig. lia.
  - assert (Hpos : 0 < Z.abs z) by lia.
    apply (Z.log2_lt_pow2 _ 53 Hpos) in Hz. lia.
Qed.

(** Within [2^51] in magnitude, [x + w / 2] is computed without rounding:
    it is the fraction [(2x + w) / 2]. *)
Lemma midpoint_exact x w :
  Z.abs x ≤ 2 ^ 51 → Z.abs w ≤ 2 ^ 51 →
  add_int_float x (halve w) = (x * 2 + w * 1) # 2.
Proof.
  intros Hx Hw.
  assert (H51 : 2 ^ 51 = 2251799813685248) by reflexivity.
  assert (H53 : 2 ^ 53 = 9007199254740992) by reflexivity.
  unfold add_int_float, halve, round_double.
  cbn [Qnum Qden]. rewrite (round53_small w) by lia.
  rewrite (round53_small x) by lia.
  cbn [inject_Z Qplus Qnum Qden Pos.mul].
  rewrite round53_small by lia. reflexivity.
Qed.

Lemma midpoint_value x w :
  Z.abs x ≤ 2 ^ 51 → Z.abs w ≤ 2 ^ 51 →
  (add_int_float x (halve w) == inject_Z x + inject_Z w / 2)%Q.
Proof.
  intros Hx Hw. rewrite midpoint_exact by done.
  unfold Qeq, Qdiv, Qmult, Qplus, Qinv, inject_Z. cbn. lia.
Qed.

(** What [%d] prints for such a midpoint: it is cut toward zero. *)
Lemma midpoint_shown x w :
  Z.abs x ≤ 2 ^ 51 → Z.abs w ≤ 2 ^ 51 →
  py_int (add_int_float x (halve w)) = (2 * x + w) ÷ 2.
Proof.
  intros Hx Hw. rewrite midpoint_exact by done.
  unfold py_int. cbn [Qnum Qden]. f_equal. lia.
Qed.

(** [round53] is the conversion the formatting operator applies to an
    integer under [%f], short of its range check. *)
Lemma float_of_int_round53 z q :
  Format.float_of_int z = Ok q → q = inject_Z (round53 z).
Proof.
  unfold Format.float_of_int, round53. cbv zeta.
  destruct (Z.log2 (Z.abs z) + 1 <=? 53); [by intros [= <-]|].
  match goal with |- context [2 ^ 1024 <=? ?m] =>
    destruct (2 ^ 1024 <=? m) end; [discriminate|].
  by intros [= <-].
Qed.

(** Beyond 53 bits the conversion and the sum round, ties to even. *)
Example midpoint_rounds :
  (add_int_float (2 ^ 53 + 1) (halve 2) == inject_Z (2 ^ 53))%Q ∧
  py_int (add_int_float (2 ^ 53 + 1) (halve 2)) = 9007199254740992.
Proof. split; reflexivity. Qed.

(** ** The base constructor *)

Lemma Track_init_box clock self img a b c d :
  Track.__init__ clock self img [a; b; c; d] =
  Ok {| Track.bb := Some [a; b; c; d];
        Track.image := Some img;
        Track.bb_x := Some a;
        Track.bb_y := Some b;
        Track.w := Some c;
        Track.h := Some d;
        Track.x := Some (add_int_float a (halve c));
        Track.y := Some (add_int_float b (halve d));
        Track.center :=
          Some (add_int_float a (halve c), add_int_float b (halve d));
        Track.sizeRatio := Some (PyInt 1);
        Track.vel := Some (PyInt 0, PyInt 0);
        Track.rt_vel := Some (PyInt 0, PyInt 0);
        Track.time := Some clock;
        Track.cv2numpy := Some img;
        Track.predict_pt := Some (PyInt 0, PyInt 0);
        Track.state_pt := Some (PyInt 0, PyInt 0) |}.
Proof. py_eval. reflexivity. Qed.

(** Only a tuple of four elements can be unpacked. *)
Lemma Track_init_tuple clock self img bb t :
  Track.__init__ clock self img bb = Ok t →
  ∃ a b c d, bb = [a; b; c; d].
Proof.
  destruct bb as [|a [|b [|c [|d [|e rest]]]]]; py_eval; try discriminate.
  intros _. by exists a, b, c, d.
Qed.

Lemma Track_init_bad_tuple clock self img bb :
  length bb ≠ 4%nat → Track.__init__ clock self img bb = Raise ValueError.
Proof.
  destruct bb as [|a [|b [|c [|d [|e rest]]]]]; intros Hlen;
    try (exfalso; apply Hlen; reflexivity); py_eval; reflexivity.
Qed.

(** Every attribute of a fresh instance, in one statement. *)
Lemma Track_init_inv clock self img bb t :
  Track.__init__ clock self img bb = Ok t →
  ∃ a b c d, bb = [a; b; c; d] ∧
    t = {| Track.bb := Some bb;
           Track.image := Some img;
           Track.bb_x := Some a;
           Track.bb_y := Some b;
           Track.w := Some c;
           Track.h := Some d;
           Track.x := Some (add_int_float a (halve c));
           Track.y := Some (add_int_float b (halve d));
           Track.center :=
             Some (add_int_float a (halve c), add_int_float b (halve d));
           Track.sizeRatio := Some (PyInt 1);
           Track.vel := Some (PyInt 0, PyInt 0);
           Track.rt_vel := Some (PyInt 0, PyInt 0);
           Track.time := Some clock;
           Track.cv2numpy := Some img;
           Track.predict_pt := Some (PyInt 0, PyInt 0);
           Track.state_pt := Some (PyInt 0, PyInt 0) |}.
Proof.
  intros H. destruct (Track_init_tuple _ _ _ _ _ H) as (a & b & c & d & ->).
  rewrite Track_init_box in H. exists a, b, c, d. split; congruence.
Qed.

(** ** What each subclass constructor leaves in the instance *)

(** One step of a sequence whose first call returned. *)
Ltac bind_ok H := cbv [mbind PyResult_bind]; rewrite H; cbv beta iota.

Lemma CAMShiftTrack_inv clock img bb e t :
  CAMShiftTrack.CAMShiftTrack clock img bb e = Ok t →
  Track.__init__ clock Track.new img bb = Ok (CAMShiftTrack.base t) ∧
  CAMShiftTrack.ellipse t = Some e.
Proof.
  unfold CAMShiftTrack.CAMShiftTrack, CAMShiftTrack.__init__.
  change (CAMShiftTrack.base CAMShiftTrack.new) with Track.new.
  destruct (Track.__init__ clock Track.new img bb) as [b|err];
    cbv [mbind PyResult_bind]; [|discriminate].
  intros [= <-]. split; reflexivity.
Qed.

Lemma LKTrack_inv clock img bb pts t :
  LKTrack.LKTrack clock img bb pts = Ok t →
  Track.__init__ clock Track.new img bb = Ok (LKTrack.base t) ∧
  LKTrack.pts t = Some pts.
Proof.
  unfold LKTrack.LKTrack, LKTrack.__init__.
  change (LKTrack.base LKTrack.new) with Track.new.
  destruct (Track.__init__ clock Track.new img bb) as [b|err];
    cbv [mbind PyResult_bind]; [|discriminate].
  intros [= <-]. split; reflexivity.
Qed.

Lemma MFTrack_inv clock img bb sh t :
  MFTrack.MFTrack clock img bb sh = Ok t →
  Track.__init__ clock Track.new img bb = Ok (MFTrack.base t) ∧
  MFTrack.shift t = Some sh.
Proof.
  unfold MFTrack.MFTrack, MFTrack.__init__.
  change (MFTrack.base MFTrack.new) with Track.new.
  destruct (Track.__init__ clock Track.new img bb) as [b|err];
    cbv [mbind PyResult_bind]; [|discriminate].
  intros [= <-]. split; reflexivity.
Qed.

(** The degenerate box always unpacks. *)
Lemma Track_init_unit_box clock img :
  ∃ b, Track.__init__ clock Track.new img [1; 1; 1; 1] = Ok b ∧
       Track.getBB b = Ok [1; 1; 1; 1] ∧ Track.getImage b = Ok img.
Proof. eexists. rewrite Track_init_box. repeat split. Qed.

Section SURF_branches.

Variable cv2_kmeans : list Point → PyResult KMeansResult.
Variables (clock : Q) (img : ObjRef) (new_pts : list KeyPoint).
Variables (detector descriptor templateImg : ObjRef).
Variables (skp tkp : list KeyPoint) (sd td : PyOpt ndarray).

Let construct :=
  SURFTrack.SURFTrack cv2_kmeans clock img new_pts detector descriptor
    templateImg skp sd tkp td.

(** First branch: no template descriptor. *)
Lemma SURF_no_template :
  td = PyNone →
  construct =
  (b ← Track.__init__ clock Track.new img [1; 1; 1; 1];
   Ok (SURFTrack.set_base b SURFTrack.new)).
Proof. intros ->. subst construct. py_eval. reflexivity. Qed.

(** Second and third branch: the payload is stored, the point set is
    cleared. *)
Lemma SURF_degenerate :
  td ≠ PyNone → (length new_pts < 1)%nat ∨ sd = PyNone →
  construct =
  (b ← Track.__init__ clock Track.new img [1; 1; 1; 1];
   Ok {| SURFTrack.base := b;
         SURFTrack.pts := Some PyNone;
         SURFTrack.templateImg := Some templateImg;
         SURFTrack.skp := Some skp;
         SURFTrack.sd := Some sd;
         SURFTrack.tkp := Some tkp;
         SURFTrack.td := Some td;
         SURFTrack.detector := Some detector;
         SURFTrack.descriptor := Some descriptor |}).
Proof.
  intros Htd Hdeg. subst construct. destruct td as [|tdv]; [done|].
  destruct new_pts as [|kp kps].
  - py_eval. reflexivity.
  - destruct Hdeg as [Hlen | ->]; [simpl in Hlen; lia|].
    py_eval. reflexivity.
Qed.

End SURF_branches.

(** ** [max] and [min] *)

Lemma fold_min_spec rest : ∀ x0,
  is_min (fold_left (λ best v, if Qle_bool best v then best else v) rest x0)
         (x0 :: rest).
Proof.
  induction rest as [|v rest IH]; intros x0; simpl.
  - split; [by left|]. repeat constructor. apply Qle_refl.
  - destruct (Qle_bool x0 v) eqn:Hle.
    + destruct (IH x0) as [Hin Hall]. apply Qle_bool_iff in Hle.
      inversion Hall as [|? ? Hx0 Hrest]; subst. split.
      * destruct Hin as [<- | Hin]; [by left | right; by right].
      * repeat constructor; [done | by eapply Qle_trans | done].
    + destruct (IH v) as [Hin Hall].
      assert (Hlt : (v < x0)%Q).
      { apply Qnot_le_lt. intros Hc. apply Qle_bool_iff in Hc. congruence. }
      inversion Hall as [|? ? Hv Hrest]; subst. split.
      * by right.
      * repeat constructor; [|done|done].
        eapply Qle_trans; [exact Hv | by apply Qlt_le_weak].
Qed.

Lemma fold_max_spec rest : ∀ x0,
  is_max (fold_left (λ best v, if Qle_bool v best then best else v) rest x0)
         (x0 :: rest).
Proof.
  induction rest as [|v rest IH]; intros x0; simpl.
  - split; [by left|]. repeat constructor. apply Qle_refl.
  - destruct (Qle_bool v x0) eqn:Hle.
    + destruct (IH x0) as [Hin Hall]. apply Qle_bool_iff in Hle.
      inversion Hall as [|? ? Hx0 Hrest]; subst. split.
      * destruct Hin as [<- | Hin]; [by left | right; by right].
      * repeat constructor; [done | by eapply Qle_trans | done].
    + destruct (IH v) as [Hin Hall].
      assert (Hlt : (x0 < v)%Q).
      { apply Qnot_le_lt. intros Hc. apply Qle_bool_iff in Hc. congruence. }
      inversion Hall as [|? ? Hv Hrest]; subst. split.
      * by right.
      * repeat constructor; [|done|done].
        eapply Qle_trans; [by apply Qlt_le_weak | exact Hv].
Qed.

Lemma py_min_spec xs :
  xs ≠ [] → ∃ m, py_min xs = Ok m ∧ is_min m xs.
Proof.
  destruct xs as [|x0 rest]; [done|]. intros _.
  eexists. split; [reflexivity | apply fold_min_spec].
Qed.

Lemma py_max_spec xs :
  xs ≠ [] → ∃ m, py_max xs = Ok m ∧ is_max m xs.
Proof.
  destruct xs as [|x0 rest]; [done|]. intros _.
  eexists. split; [reflexivity | apply fold_max_spec].
Qed.

Lemma py_min_empty : py_min [] = Raise ValueError.
Proof. reflexivity. Qed.

(** ** The branch of [SURFTrack] that derives a box from the points *)

Section SURF_valid.

Variable cv2_kmeans : list Point → PyResult KMeansResult.
Variables (clock : Q) (img : ObjRef) (new_pts : list KeyPoint).
Variables (detector descriptor templateImg : ObjRef).
Variables (skp tkp : list KeyPoint) (sdv tdv : ndarray).

Let np_pts := map pt new_pts.

Lemma SURF_valid out :
  new_pts ≠ [] →
  cv2_kmeans np_pts = Ok out →
  ∃ max_x min_x max_y min_y,
    py_max (map fst np_pts) = Ok max_x ∧
    py_min (map fst np_pts) = Ok min_x ∧
    py_max (map snd np_pts) = Ok max_y ∧
    py_min (map snd np_pts) = Ok min_y ∧
    SURFTrack.SURFTrack cv2_kmeans clock img new_pts detector descriptor
      templateImg skp (PyVal sdv) tkp (PyVal tdv) =
    (b ← Track.__init__ clock Track.new img
           [py_int min_x - 5; py_int min_y - 5;
            py_int max_x - py_int min_x + 5;
            py_int max_y - py_int min_y + 5];
     Ok {| SURFTrack.base := b;
           SURFTrack.pts := Some (PyVal np_pts);
           SURFTrack.templateImg := Some templateImg;
           SURFTrack.skp := Some skp;
           SURFTrack.sd := Some (PyVal sdv);
           SURFTrack.tkp := Some tkp;
           SURFTrack.td := Some (PyVal tdv);
           SURFTrack.detector := Some detector;
           SURFTrack.descriptor := Some descriptor |}).
Proof.
  intros Hne Hkm.
  assert (Hx : map fst np_pts ≠ []).
  { subst np_pts. destruct new_pts; [done | discriminate]. }
  assert (Hy : map snd np_pts ≠ []).
  { subst np_pts. destruct new_pts; [done | discriminate]. }
  destruct (py_max_spec _ Hx) as (max_x & HMx & _).
  destruct (py_min_spec _ Hx) as (min_x & Hmx & _).
  destruct (py_max_spec _ Hy) as (max_y & HMy & _).
  destruct (py_min_spec _ Hy) as (min_y & Hmy & _).
  exists max_x, min_x, max_y, min_y. repeat (split; [assumption|]).
  unfold SURFTrack.SURFTrack, SURFTrack.__init__.
  cbv [is_None]. 
  replace (length new_pts <? 1)%nat with false
    by (destruct new_pts; [done | reflexivity]).
  fold np_pts. rewrite Hkm, HMx, Hmx, HMy, Hmy.
  destruct out as [[compactness labels] centers].
  cbv [mbind PyResult_bind]. cbv beta iota.
  destruct (Track.__init__ _ _ _ _) as [b|err]; reflexivity.
Qed.

(** The call to [cv2.kmeans] is the only step that can fail. *)
Lemma SURF_kmeans_raises err :
  new_pts ≠ [] →
  cv2_kmeans np_pts = Raise err →
  SURFTrack.SURFTrack cv2_kmeans clock img new_pts detector descriptor
    templateImg skp (PyVal sdv) tkp (PyVal tdv) = Raise err.
Proof.
  intros Hne Hkm. unfold SURFTrack.SURFTrack, SURFTrack.__init__.
  cbv [is_None].
  replace (length new_pts <? 1)%nat with false
    by (destruct new_pts; [done | reflexivity]).
  fold np_pts. rewrite Hkm. reflexivity.
Qed.

End SURF_valid.

(** Whatever the branch, [SURFTrack] runs the base constructor on a fresh
    instance and keeps its result. *)
Lemma SURFTrack_base cv2_kmeans clock img new_pts detector descriptor
    templateImg skp sd tkp td t :
  SURFTrack.SURFTrack cv2_kmeans clock img new_pts detector descriptor
    templateImg skp sd tkp td = Ok t →
  ∃ bb, Track.__init__ clock Track.new img bb = Ok (SURFTrack.base t).
Proof.
  destruct td as [|tdv].
  - rewrite SURF_no_template by done.
    destruct (Track.__init__ _ _ _ _) as [b|err] eqn:Hb;
      cbv [mbind PyResult_bind]; [|discriminate].
    intros [= <-]. by exists [1; 1; 1; 1].
  - destruct (decide (new_pts = [])) as [-> | Hne];
      [|destruct sd as [|sdv]].
    + rewrite SURF_degenerate by (done || (left; simpl; lia)).
      destruct (Track.__init__ _ _ _ _) as [b|err] eqn:Hb;
        cbv [mbind PyResult_bind]; [|discriminate].
      intros [= <-]. by exists [1; 1; 1; 1].
    + rewrite SURF_degenerate by (done || by right).
      destruct (Track.__init__ _ _ _ _) as [b|err] eqn:Hb;
        cbv [mbind PyResult_bind]; [|discriminate].
      intros [= <-]. by exists [1; 1; 1; 1].
    + destruct (cv2_kmeans (map pt new_pts)) as [out|err] eqn:Hkm.
      * destruct (SURF_valid cv2_kmeans clock img new_pts detector
                    descriptor templateImg skp tkp sdv tdv out Hne Hkm)
          as (max_x & min_x & max_y & min_y & _ & _ & _ & _ & ->).
        destruct (Track.__init__ _ _ _ _) as [b|err] eqn:Hb;
          cbv [mbind PyResult_bind]; [|discriminate].
        intros [= <-]. eexists. exact Hb.
      * rewrite SURF_kmeans_raises with (err := err) by done. discriminate.
Qed.

Lemma Track_init_untouched clock self img bb t :
  Track.__init__ clock self img bb = Ok t → untouched t.
Proof.
  intros H. destruct (Track_init_inv _ _ _ _ _ H) as (a & b & c & d & _ & ->).
  repeat split.
Qed.

Lemma Track_init_getBB clock self img bb t :
  Track.__init__ clock self img bb = Ok t → Track.getBB t = Ok bb.
Proof.
  intros H. destruct (Track_init_inv _ _ _ _ _ H) as (a & b & c & d & _ & ->).
  reflexivity.
Qed.

Lemma Track_init_getImage clock self img bb t :
  Track.__init__ clock self img bb = Ok t → Track.getImage t = Ok img.
Proof.
  intros H. destruct (Track_init_inv _ _ _ _ _ H) as (a & b & c & d & _ & ->).
  reflexivity.
Qed.

(** ** Geometry and accessors of the base class *)



(** The scenario of the specification: box [(100,100,50,50)]. *)
Example Track_scenario_geometry :
  ∃ t, Track.Track 0 1%positive [100; 100; 50; 50] = Ok t ∧
       Track.center t = Some (250 # 2, 250 # 2) ∧
       (250 # 2 == 125)%Q ∧ Track.area t = Ok 2500.
Proof.
  unfold Track.Track. rewrite Track_init_box. eexists.
  split; [reflexivity|]. split; [reflexivity|]. split; reflexivity.
Qed.

(** The division is the true one: an odd width or height gives a center
    on the half pixel. *)
Example Track_center_odd :
  ∃ t, Track.Track 0 1%positive [0; 0; 5; 7] = Ok t ∧
       Track.center t = Some (5 # 2, 7 # 2) ∧ Track.area t = Ok 35.
Proof.
  unfold Track.Track. rewrite Track_init_box. eexists.
  split; [reflexivity|]. split; reflexivity.
Qed.

(** For every box, rounded or not, the attributes [x], [y], [center] and
    the result of [getCenter] are one and the same pair. *)
Lemma Track_center_consistent clock img bb t :
  Track.Track clock img bb = Ok t →
  ∃ cx cy, Track.center t = Some (cx, cy) ∧ Track.x t = Some cx ∧
           Track.y t = Some cy ∧ Track.getCenter t = Ok (cx, cy).
Proof.
  unfold Track.Track. intros H.
  destruct (Track_init_inv _ _ _ _ _ H) as (a & b & c & d & _ & ->).
  eexists _, _. repeat split.
Qed.

(** C5. [getBB] returns the very tuple the base constructor received: for
    [Track] and for the three subclasses that take a box it is the [bb]
    argument; [SURFTrack] takes no box and returns the one it handed to the
    base constructor. *)
Theorem getBB_returns_constructor_box :
  (∀ clock self img bb t,
     Track.__init__ clock self img bb = Ok t → Track.getBB t = Ok bb) ∧
  (∀ clock img bb t,
     Track.Track clock img bb = Ok t → Track.getBB t = Ok bb) ∧
  (∀ clock img bb e t,
     CAMShiftTrack.CAMShiftTrack clock img bb e = Ok t →
     Track.getBB (CAMShiftTrack.base t) = Ok bb) ∧
  (∀ clock img bb pts t,
     LKTrack.LKTrack clock img bb pts = Ok t →
     Track.getBB (LKTrack.base t) = Ok bb) ∧
  (∀ clock img bb sh t,
     MFTrack.MFTrack clock img bb sh = Ok t →
     Track.getBB (MFTrack.base t) = Ok bb) ∧
  (∀ cv2_kmeans clock img new_pts detector descriptor templateImg skp sd
      tkp td t,
     SURFTrack.SURFTrack cv2_kmeans clock img new_pts detector descriptor
       templateImg skp sd tkp td = Ok t →
     ∃ bb, Track.__init__ clock Track.new img bb = Ok (SURFTrack.base t) ∧
           Track.getBB (SURFTrack.base t) = Ok bb).
Proof.
  split; [exact Track_init_getBB|].
  split.
  { intros clock img bb t H. unfold Track.Track in H.
    exact (Track_init_getBB _ _ _ _ _ H). }
  split.
  { intros clock img bb e t H. apply CAMShiftTrack_inv in H as [H _].
    exact (Track_init_getBB _ _ _ _ _ H). }
  split.
  { intros clock img bb pts t H. apply LKTrack_inv in H as [H _].
    exact (Track_init_getBB _ _ _ _ _ H). }
  split.
  { intros clock img bb sh t H. apply MFTrack_inv in H as [H _].
    exact (Track_init_getBB _ _ _ _ _ H). }
  intros * H. apply SURFTrack_base in H as [bb H].
  exists bb. split; [exact H|]. exact (Track_init_getBB _ _ _ _ _ H).
Qed.

Lemma getBB_returns_constructor_box_witness :
  ∃ t, Track.Track 0 1%positive [100; 100; 50; 50] = Ok t ∧
       Track.getBB t = Ok [100; 100; 50; 50].
Proof.
  unfold Track.Track. rewrite Track_init_box. eexists.
  split; [reflexivity|].
  apply (proj1 getBB_returns_constructor_box 0%Q Track.new 1%positive).
  apply Track_init_box.
Defined.

(** C9. [processTrack(func)] is [func] applied to the held frame, the one
    [getImage()] returns. *)
Theorem processTrack_applies_func {R : Type} (t : Track.t)
    (func : ObjRef → R) (img : ObjRef) :
  Track.getImage t = Ok img →
  Track.processTrack t func = Ok (func img).
Proof.
  unfold Track.getImage, Track.processTrack. intros H.
  cbv [mbind PyResult_bind]. rewrite H. reflexivity.
Qed.

Lemma processTrack_applies_func_witness :
  ∃ t, Track.Track 0 1%positive [100; 100; 50; 50] = Ok t ∧
       Track.processTrack t (λ img, Pos.succ img) = Ok 2%positive.
Proof.
  unfold Track.Track. rewrite Track_init_box. eexists.
  split; [reflexivity|].
  apply (processTrack_applies_func _ (λ img, Pos.succ img) 1%positive).
  reflexivity.
Defined.

(** Without a frame there is nothing to apply [func] to. *)
Lemma processTrack_raises {R : Type} (t : Track.t) (func : ObjRef → R) e :
  Track.getImage t = Raise e → Track.processTrack t func = Raise e.
Proof.
  unfold Track.getImage, Track.processTrack. intros H.
  cbv [mbind PyResult_bind]. rewrite H. reflexivity.
Qed.

(** C10. Right after construction, whatever the class, [vel], [rt_vel],
    [predict_pt] and [state_pt] are [(0, 0)], and so are the results of
    [getPredictionPoints()] and [getCorrectedPoints()]. *)
Theorem fresh_track_is_untouched :
  (∀ clock img bb t,
     Track.Track clock img bb = Ok t → untouched t) ∧
  (∀ clock img bb e t,
     CAMShiftTrack.CAMShiftTrack clock img bb e = Ok t →
     untouched (CAMShiftTrack.base t)) ∧
  (∀ clock img bb pts t,
     LKTrack.LKTrack clock img bb pts = Ok t →
     untouched (LKTrack.base t)) ∧
  (∀ clock img bb sh t,
     MFTrack.MFTrack clock img bb sh = Ok t →
     untouched (MFTrack.base t)) ∧
  (∀ cv2_kmeans clock img new_pts detector descriptor templateImg skp sd
      tkp td t,
     SURFTrack.SURFTrack cv2_kmeans clock img new_pts detector descriptor
       templateImg skp sd tkp td = Ok t →
     untouched (SURFTrack.base t)).
Proof.
  split.
  { intros clock img bb t H. unfold Track.Track in H.
    exact (Track_init_untouched _ _ _ _ _ H). }
  split.
  { intros clock img bb e t H. apply CAMShiftTrack_inv in H as [H _].
    exact (Track_init_untouched _ _ _ _ _ H). }
  split.
  { intros clock img bb pts t H. apply LKTrack_inv in H as [H _].
    exact (Track_init_untouched _ _ _ _ _ H). }
  split.
  { intros clock img bb sh t H. apply MFTrack_inv in H as [H _].
    exact (Track_init_untouched _ _ _ _ _ H). }
  intros * H. apply SURFTrack_base in H as [bb H].
  exact (Track_init_untouched _ _ _ _ _ H).
Qed.

Lemma fresh_track_is_untouched_witness :
  ∃ t, LKTrack.LKTrack 0 1%positive [100; 100; 50; 50] PyNone = Ok t ∧
       untouched (LKTrack.base t).
Proof.
  unfold LKTrack.LKTrack, LKTrack.__init__.
  change (LKTrack.base LKTrack.new) with Track.new.
  rewrite Track_init_box. eexists. split; [reflexivity|].
  apply (proj1 (proj2 (proj2 fresh_track_is_untouched))
           0%Q 1%positive [100; 100; 50; 50] PyNone).
  vm_compute. reflexivity.
Defined.

(** ** Truncation by [int] *)

Lemma py_int_nonneg q : (0 <= q)%Q → py_int q = Qfloor q.
Proof.
  destruct q as [n d]. unfold Qle, py_int, Qfloor. simpl. intros Hn.
  apply Z.quot_div_nonneg; lia.
Qed.

Lemma py_int_neg q : (q <= 0)%Q → py_int q = Qceiling q.
Proof.
  destruct q as [n d]. unfold Qle, py_int, Qceiling, Qfloor. simpl.
  intros Hn. rewrite <- (Z.opp_involutive n) at 1.
  rewrite Z.quot_opp_l by lia. f_equal.
  apply Z.quot_div_nonneg; lia.
Qed.

(** [int] does not depend on how the value is written as a fraction. *)
Lemma py_int_comp p q : (p == q)%Q → py_int p = py_int q.
Proof.
  intros Heq. destruct (Qlt_le_dec p 0) as [Hneg | Hpos].
  - rewrite !py_int_neg.
    + by rewrite Heq.
    + rewrite <- Heq. by apply Qlt_le_weak.
    + by apply Qlt_le_weak.
  - rewrite !py_int_nonneg.
    + by rewrite Heq.
    + by rewrite <- Heq.
    + done.
Qed.

(** On a non negative value [int] rounds down, and by less than one. *)
Lemma py_int_bounds q :
  (0 <= q)%Q →
  (inject_Z (py_int q) <= q)%Q ∧ (q < inject_Z (py_int q + 1))%Q.
Proof.
  intros Hq. rewrite py_int_nonneg by done.
  split; [apply Qfloor_le | apply Qlt_floor].
Qed.

(** An integral coordinate is left as it is. *)
Lemma py_int_inject_Z z : py_int (inject_Z z) = z.
Proof. unfold py_int, inject_Z. simpl. apply Z.quot_1_r. Qed.

(** ** Construction of [SURFTrack] *)

(** C2. Without a template descriptor the box is [(1,1,1,1)], the frame is
    kept, and none of the payload attributes is assigned. *)
Theorem SURFTrack_without_template cv2_kmeans clock img new_pts detector
    descriptor templateImg skp sd tkp :
  ∃ t,
    SURFTrack.SURFTrack cv2_kmeans clock img new_pts detector descriptor
      templateImg skp sd tkp PyNone = Ok t ∧
    Track.getBB (SURFTrack.base t) = Ok [1; 1; 1; 1] ∧
    Track.getImage (SURFTrack.base t) = Ok img ∧
    SURFTrack.pts t = None ∧
    SURFTrack.detector t = None ∧
    SURFTrack.descriptor t = None ∧
    SURFTrack.templateImg t = None ∧
    SURFTrack.skp t = None ∧
    SURFTrack.sd t = None ∧
    SURFTrack.tkp t = None ∧
    SURFTrack.td t = None.
Proof.
  rewrite SURF_no_template by reflexivity.
  rewrite Track_init_box. cbv [mbind PyResult_bind].
  eexists. split; [reflexivity|]. repeat split.
Qed.

(** Such an instance has no [pts] attribute at all: asking for the tracked
    points raises. *)
Lemma SURFTrack_without_template_points cv2_kmeans clock img new_pts
    detector descriptor templateImg skp sd tkp t :
  SURFTrack.SURFTrack cv2_kmeans clock img new_pts detector descriptor
    templateImg skp sd tkp PyNone = Ok t →
  SURFTrack.getTrackedPoints t = Raise AttributeError.
Proof.
  rewrite SURF_no_template by reflexivity.
  rewrite Track_init_box. cbv [mbind PyResult_bind]. by intros [= <-].
Qed.

(** C3. With a template descriptor but no match point, or no image
    descriptor, the box is [(1,1,1,1)], the point set is [None], and the
    detector, descriptor extractor, template image, key points and
    descriptors are the arguments of the constructor. *)
Theorem SURFTrack_degenerate cv2_kmeans clock img new_pts detector
    descriptor templateImg skp sd tkp tdv :
  (length new_pts < 1)%nat ∨ sd = PyNone →
  ∃ t,
    SURFTrack.SURFTrack cv2_kmeans clock img new_pts detector descriptor
      templateImg skp sd tkp (PyVal tdv) = Ok t ∧
    Track.getBB (SURFTrack.base t) = Ok [1; 1; 1; 1] ∧
    Track.getImage (SURFTrack.base t) = Ok img ∧
    SURFTrack.pts t = Some PyNone ∧
    SURFTrack.getTrackedPoints t = Ok PyNone ∧
    SURFTrack.detector t = Some detector ∧
    SURFTrack.descriptor t = Some descriptor ∧
    SURFTrack.templateImg t = Some templateImg ∧
    SURFTrack.skp t = Some skp ∧
    SURFTrack.sd t = Some sd ∧
    SURFTrack.tkp t = Some tkp ∧
    SURFTrack.td t = Some (PyVal tdv).
Proof.
  intros Hdeg. rewrite SURF_degenerate by done.
  rewrite Track_init_box. cbv [mbind PyResult_bind].
  eexists. split; [reflexivity|]. repeat split.
Qed.

Lemma SURFTrack_degenerate_witness :
  (∃ t, SURFTrack.SURFTrack (λ _, Raise cv2_error) 0 1%positive []
          2%positive 3%positive 4%positive [] (PyVal [[1%Q]]) []
          (PyVal [[1%Q]]) = Ok t ∧
        Track.getBB (SURFTrack.base t) = Ok [1; 1; 1; 1] ∧
        SURFTrack.pts t = Some PyNone) ∧
  (∃ t, SURFTrack.SURFTrack (λ _, Raise cv2_error) 0 1%positive
          [{| pt := (3, 4)%Q; size := 1; angle := 0 |}]
          2%positive 3%positive 4%positive [] PyNone []
          (PyVal [[1%Q]]) = Ok t ∧
        Track.getBB (SURFTrack.base t) = Ok [1; 1; 1; 1] ∧
        SURFTrack.pts t = Some PyNone).
Proof.
  split.
  - destruct (SURFTrack_degenerate (λ _, Raise cv2_error) 0 1%positive []
                2%positive 3%positive 4%positive [] (PyVal [[1%Q]]) []
                [[1%Q]]) as (t & Ht & Hbb & _ & Hpts & _).
    + left. simpl. lia.
    + exists t. auto.
  - destruct (SURFTrack_degenerate (λ _, Raise cv2_error) 0 1%positive
                [{| pt := (3, 4)%Q; size := 1; angle := 0 |}]
                2%positive 3%positive 4%positive [] PyNone []
                [[1%Q]]) as (t & Ht & Hbb & _ & Hpts & _).
    + right. reflexivity.
    + exists t. auto.
Defined.

(** An extent is determined up to the way the number is written. *)
Lemma is_min_unique a b xs : is_min a xs → is_min b xs → (a == b)%Q.
Proof.
  intros [Ha Hall_a] [Hb Hall_b].
  rewrite List.Forall_forall in Hall_a, Hall_b.
  apply Qle_antisym; auto.
Qed.

Lemma is_max_unique a b xs : is_max a xs → is_max b xs → (a == b)%Q.
Proof.
  intros [Ha Hall_a] [Hb Hall_b].
  rewrite List.Forall_forall in Hall_a, Hall_b.
  apply Qle_antisym; auto.
Qed.

(** The valid branch in terms of the extents of the match points, however
    they are written. *)
Lemma SURF_valid_box cv2_kmeans clock img new_pts detector descriptor
    templateImg skp sdv tkp tdv out min_x min_y max_x max_y :
  new_pts ≠ [] →
  cv2_kmeans (map pt new_pts) = Ok out →
  is_min min_x (map fst (map pt new_pts)) →
  is_min min_y (map snd (map pt new_pts)) →
  is_max max_x (map fst (map pt new_pts)) →
  is_max max_y (map snd (map pt new_pts)) →
  SURFTrack.SURFTrack cv2_kmeans clock img new_pts detector descriptor
    templateImg skp (PyVal sdv) tkp (PyVal tdv) =
  (b ← Track.__init__ clock Track.new img
         [py_int min_x - 5; py_int min_y - 5;
          py_int max_x - py_int min_x + 5;
          py_int max_y - py_int min_y + 5];
   Ok {| SURFTrack.base := b;
         SURFTrack.pts := Some (PyVal (map pt new_pts));
         SURFTrack.templateImg := Some templateImg;
         SURFTrack.skp := Some skp;
         SURFTrack.sd := Some (PyVal sdv);
         SURFTrack.tkp := Some tkp;
         SURFTrack.td := Some (PyVal tdv);
         SURFTrack.detector := Some detector;
         SURFTrack.descriptor := Some descriptor |}).
Proof.
  intros Hne Hkm Hmin_x Hmin_y Hmax_x Hmax_y.
  destruct (SURF_valid cv2_kmeans clock img new_pts detector descriptor
              templateImg skp tkp sdv tdv out Hne Hkm)
    as (Mx & mx & My & my & HMx & Hmx & HMy & Hmy & ->).
  assert (Hx : map fst (map pt new_pts) ≠ [])
    by (destruct new_pts; [done | discriminate]).
  assert (Hy : map snd (map pt new_pts) ≠ [])
    by (destruct new_pts; [done | discriminate]).
  destruct (py_max_spec _ Hx) as (? & E1 & HMx').
  destruct (py_min_spec _ Hx) as (? & E2 & Hmx').
  destruct (py_max_spec _ Hy) as (? & E3 & HMy').
  destruct (py_min_spec _ Hy) as (? & E4 & Hmy').
  rewrite HMx in E1. rewrite Hmx in E2. rewrite HMy in E3.
  rewrite Hmy in E4.
  injection E1 as <-. injection E2 as <-.
  injection E3 as <-. injection E4 as <-.
  rewrite (py_int_comp _ _ (is_max_unique _ _ _ HMx' Hmax_x)).
  rewrite (py_int_comp _ _ (is_min_unique _ _ _ Hmx' Hmin_x)).
  rewrite (py_int_comp _ _ (is_max_unique _ _ _ HMy' Hmax_y)).
  rewrite (py_int_comp _ _ (is_min_unique _ _ _ Hmy' Hmin_y)).
  reflexivity.
Qed.

(** C1 (as the code has it). With a template descriptor, at least one
    match point and an image descriptor, and once [cv2.kmeans] has
    returned, the box is
    [(min_x-5, min_y-5, max_x-min_x+5, max_y-min_y+5)] where each of
    [min_x], [min_y], [max_x], [max_y] is the smallest, respectively
    largest, x or y coordinate of the match points truncated to an integer
    by [int]; the payload arguments and the untruncated array of match
    points are stored. *)
Theorem SURFTrack_box_from_points cv2_kmeans clock img new_pts detector
    descriptor templateImg skp sdv tkp tdv out min_x min_y max_x max_y :
  new_pts ≠ [] →
  cv2_kmeans (map pt new_pts) = Ok out →
  is_min min_x (map fst (map pt new_pts)) →
  is_min min_y (map snd (map pt new_pts)) →
  is_max max_x (map fst (map pt new_pts)) →
  is_max max_y (map snd (map pt new_pts)) →
  ∃ t,
    SURFTrack.SURFTrack cv2_kmeans clock img new_pts detector descriptor
      templateImg skp (PyVal sdv) tkp (PyVal tdv) = Ok t ∧
    Track.getBB (SURFTrack.base t) =
      Ok [py_int min_x - 5; py_int min_y - 5;
          py_int max_x - py_int min_x + 5;
          py_int max_y - py_int min_y + 5] ∧
    Track.getImage (SURFTrack.base t) = Ok img ∧
    SURFTrack.pts t = Some (PyVal (map pt new_pts)) ∧
    SURFTrack.detector t = Some detector ∧
    SURFTrack.descriptor t = Some descriptor ∧
    SURFTrack.templateImg t = Some templateImg ∧
    SURFTrack.skp t = Some skp ∧
    SURFTrack.sd t = Some (PyVal sdv) ∧
    SURFTrack.tkp t = Some tkp ∧
    SURFTrack.td t = Some (PyVal tdv).
Proof.
  intros Hne Hkm Hmin_x Hmin_y Hmax_x Hmax_y.
  rewrite (SURF_valid_box _ _ _ _ _ _ _ _ _ _ _ _ _ _ _ _
             Hne Hkm Hmin_x Hmin_y Hmax_x Hmax_y).
  rewrite Track_init_box. cbv [mbind PyResult_bind].
  eexists. split; [reflexivity|]. repeat split.
Qed.

(** Deciding [<=] on concrete rationals. *)
Ltac Qle_decide := unfold Qle; simpl; lia.

Lemma SURFTrack_box_from_points_witness :
  ∃ t, SURFTrack.SURFTrack (λ _, Ok (0%Q, [0], [(20, 30)%Q])) 0 1%positive
         [{| pt := (10, 20)%Q; size := 1; angle := 0 |};
          {| pt := (30, 40)%Q; size := 1; angle := 0 |}]
         2%positive 3%positive 4%positive [] (PyVal [[1%Q]]) []
         (PyVal [[1%Q]]) = Ok t ∧
       Track.getBB (SURFTrack.base t) = Ok [5; 15; 25; 25] ∧
       SURFTrack.pts t = Some (PyVal [(10, 20)%Q; (30, 40)%Q]).
Proof.
  destruct (SURFTrack_box_from_points
              (λ _, Ok (0%Q, [0], [(20, 30)%Q])) 0 1%positive
              [{| pt := (10, 20)%Q; size := 1; angle := 0 |};
               {| pt := (30, 40)%Q; size := 1; angle := 0 |}]
              2%positive 3%positive 4%positive [] [[1%Q]] [] [[1%Q]]
              (0%Q, [0], [(20, 30)%Q]) 10%Q 20%Q 30%Q 40%Q)
    as (t & Ht & Hbb & _ & Hpts & _).
  - discriminate.
  - reflexivity.
  - split; [left; reflexivity | repeat constructor; Qle_decide].
  - split; [left; reflexivity | repeat constructor; Qle_decide].
  - split; [right; left; reflexivity | repeat constructor; Qle_decide].
  - split; [right; left; reflexivity | repeat constructor; Qle_decide].
  - exists t. split; [exact Ht|]. split; [exact Hbb | exact Hpts].
Defined.

(** C1 (as the sentence has it) fails when a coordinate is not integral:
    for the single match point [(10.5, 20.5)] every extent is the
    coordinate itself, the formula on the extents gives
    [(5.5, 15.5, 5, 5)], and the constructed box is [(5, 15, 5, 5)]. *)
Lemma SURFTrack_box_is_truncated :
  ∃ t box,
    SURFTrack.SURFTrack (λ _, Ok (0%Q, [0], [(21 # 2, 41 # 2)])) 0
      1%positive [{| pt := (21 # 2, 41 # 2); size := 1; angle := 0 |}]
      2%positive 3%positive 4%positive [] (PyVal [[1%Q]]) []
      (PyVal [[1%Q]]) = Ok t ∧
    Track.getBB (SURFTrack.base t) = Ok box ∧
    box = [5; 15; 5; 5] ∧
    is_min (21 # 2) [21 # 2] ∧ is_max (21 # 2) [21 # 2] ∧
    is_min (41 # 2) [41 # 2] ∧ is_max (41 # 2) [41 # 2] ∧
    box_of_extents (21 # 2) (41 # 2) (21 # 2) (41 # 2) =
      [(21 # 2) - 5; (41 # 2) - 5; (21 # 2) - (21 # 2) + 5;
       (41 # 2) - (41 # 2) + 5]%Q ∧
    ¬ Forall2 Qeq (map inject_Z box)
        (box_of_extents (21 # 2) (41 # 2) (21 # 2) (41 # 2)).
Proof.
  unfold SURFTrack.SURFTrack, SURFTrack.__init__.
  cbn [is_None length Nat.ltb Nat.leb map pt py_max py_min fold_left fst snd
       SURFTrack.base SURFTrack.new].
  cbv [mbind PyResult_bind]. cbv beta iota.
  change (py_int (21 # 2)) with 10. change (py_int (41 # 2)) with 20.
  change [10 - 5; 20 - 5; 10 - 10 + 5; 20 - 20 + 5] with [5; 15; 5; 5].
  rewrite Track_init_box.
  eexists. exists [5; 15; 5; 5].
  split; [reflexivity|]. split; [reflexivity|]. split; [reflexivity|].
  assert (Hone : ∀ q : Q, is_min q [q] ∧ is_max q [q]).
  { intros q. split; (split; [by left|]);
      repeat constructor; apply Qle_refl. }
  repeat (split; [apply Hone|]).
  split; [reflexivity|].
  intros Hall. inversion Hall as [|? ? ? ? Hhead _]; subst.
  vm_compute in Hhead. discriminate.
Qed.

(** C7. In the branch that derives the box from the points, nothing of
    what [cv2.kmeans] returns reaches the instance: two runs on the same
    arguments whose clustering calls returned different results build the
    same instance, and its box is the formula on the truncated extents of
    the match points alone. *)
Theorem SURFTrack_box_ignores_kmeans kmeans1 kmeans2 out1 out2 clock img
    new_pts detector descriptor templateImg skp sdv tkp tdv
    min_x min_y max_x max_y :
  new_pts ≠ [] →
  kmeans1 (map pt new_pts) = Ok out1 →
  kmeans2 (map pt new_pts) = Ok out2 →
  is_min min_x (map fst (map pt new_pts)) →
  is_min min_y (map snd (map pt new_pts)) →
  is_max max_x (map fst (map pt new_pts)) →
  is_max max_y (map snd (map pt new_pts)) →
  ∃ t,
    SURFTrack.SURFTrack kmeans1 clock img new_pts detector descriptor
      templateImg skp (PyVal sdv) tkp (PyVal tdv) = Ok t ∧
    SURFTrack.SURFTrack kmeans2 clock img new_pts detector descriptor
      templateImg skp (PyVal sdv) tkp (PyVal tdv) = Ok t ∧
    Track.getBB (SURFTrack.base t) =
      Ok [py_int min_x - 5; py_int min_y - 5;
          py_int max_x - py_int min_x + 5;
          py_int max_y - py_int min_y + 5].
Proof.
  intros Hne Hkm1 Hkm2 Hmin_x Hmin_y Hmax_x Hmax_y.
  rewrite (SURF_valid_box kmeans1 _ _ _ _ _ _ _ _ _ _ _ _ _ _ _
             Hne Hkm1 Hmin_x Hmin_y Hmax_x Hmax_y).
  rewrite (SURF_valid_box kmeans2 _ _ _ _ _ _ _ _ _ _ _ _ _ _ _
             Hne Hkm2 Hmin_x Hmin_y Hmax_x Hmax_y).
  rewrite Track_init_box. cbv [mbind PyResult_bind].
  eexists. split; [reflexivity|]. split; reflexivity.
Qed.

Lemma SURFTrack_box_ignores_kmeans_witness :
  ∃ t, SURFTrack.SURFTrack (λ _, Ok (0%Q, [0], [(20, 30)%Q])) 0 1%positive
         [{| pt := (10, 20)%Q; size := 1; angle := 0 |};
          {| pt := (30, 40)%Q; size := 1; angle := 0 |}]
         2%positive 3%positive 4%positive [] (PyVal [[1%Q]]) []
         (PyVal [[1%Q]]) = Ok t ∧
       SURFTrack.SURFTrack (λ _, Ok (7%Q, [1], [(0, 0)%Q])) 0 1%positive
         [{| pt := (10, 20)%Q; size := 1; angle := 0 |};
          {| pt := (30, 40)%Q; size := 1; angle := 0 |}]
         2%positive 3%positive 4%positive [] (PyVal [[1%Q]]) []
         (PyVal [[1%Q]]) = Ok t ∧
       Track.getBB (SURFTrack.base t) = Ok [5; 15; 25; 25].
Proof.
  destruct (SURFTrack_box_ignores_kmeans
              (λ _, Ok (0%Q, [0], [(20, 30)%Q]))
              (λ _, Ok (7%Q, [1], [(0, 0)%Q]))
              (0%Q, [0], [(20, 30)%Q]) (7%Q, [1], [(0, 0)%Q])
              0 1%positive
              [{| pt := (10, 20)%Q; size := 1; angle := 0 |};
               {| pt := (30, 40)%Q; size := 1; angle := 0 |}]
              2%positive 3%positive 4%positive [] [[1%Q]] [] [[1%Q]]
              10%Q 20%Q 30%Q 40%Q)
    as (t & H1 & H2 & Hbb).
  - discriminate.
  - reflexivity.
  - reflexivity.
  - split; [left; reflexivity | repeat constructor; Qle_decide].
  - split; [left; reflexivity | repeat constructor; Qle_decide].
  - split; [right; left; reflexivity | repeat constructor; Qle_decide].
  - split; [right; left; reflexivity | repeat constructor; Qle_decide].
  - exists t. split; [exact H1|]. split; [exact H2 | exact Hbb].
Defined.

(** A failing clustering call is the one thing of [cv2.kmeans] that does
    reach the caller. *)
Example SURFTrack_kmeans_failure :
  SURFTrack.SURFTrack (λ _, Raise cv2_error) 0 1%positive
    [{| pt := (10, 20)%Q; size := 1; angle := 0 |}]
    2%positive 3%positive 4%positive [] (PyVal [[1%Q]]) []
    (PyVal [[1%Q]]) = Raise cv2_error.
Proof. by apply SURF_kmeans_raises. Qed.

(** ** The template scanner *)

Lemma emit_ok c args k s :
  Format.emit c args k = Ok s →
  ∃ v rest t, args = v :: rest ∧ k rest = Ok t.
Proof.
  destruct args as [|v rest]; [discriminate|]. cbn [Format.emit].
  cbv [mbind PyResult_bind].
  destruct (Format.convert c v); [|discriminate].
  destruct (k rest) as [t|] eqn:Hk; [|discriminate].
  intros _. by exists v, rest, t.
Qed.

(** A template that formats at all asks for exactly as many conversions
    as it is given arguments. *)
Lemma scan_directives tpl : ∀ m args s,
  Format.scan m tpl args = Ok s →
  length (Format.directives m tpl) = length args.
Proof.
  induction tpl as [|c rest IH]; intros m args s.
  - destruct m; cbn; try discriminate. by destruct args.
  - destruct m as [| |n]; cbn [Format.scan Format.directives].
    + destruct (Ascii.eqb c "%"); [apply IH|].
      cbv [mbind PyResult_bind].
      destruct (Format.scan Format.in_text rest args) eqn:Hs; [|discriminate].
      intros _. by eapply IH.
    + destruct (Ascii.eqb c "d").
      { intros (v & r & t & -> & Hk)%emit_ok. cbn. f_equal. by eapply IH. }
      destruct (Ascii.eqb c "f").
      { intros (v & r & t & -> & Hk)%emit_ok. cbn. f_equal. by eapply IH. }
      destruct (Ascii.eqb c "."); [apply IH|].
      destruct (Ascii.eqb c "%"); [|discriminate].
      cbv [mbind PyResult_bind].
      destruct (Format.scan Format.in_text rest args) eqn:Hs; [|discriminate].
      intros _. by eapply IH.
    + destruct (Format.digit_of c); [apply IH|].
      destruct (Ascii.eqb c "f"); [|discriminate].
      intros (v & r & t & -> & Hk)%emit_ok. cbn. f_equal. by eapply IH.
Qed.

(** ** Text produced by the templates *)

Lemma append_empty_r (s : string) : (s +:+ "")%string = s.
Proof.
  induction s as [|c s IH]; [reflexivity|].
  change (String c (s +:+ "") = String c s). by f_equal.
Qed.

Lemma format_coordinates a b :
  Format.pyformat "x = %d  y = %d" [PyFloat a; PyFloat b] =
  Ok ("x = " +:+ Format.str_int (py_int a) +:+ "  y = "
      +:+ Format.str_int (py_int b)).
Proof.
  cbv -[Format.str_int String.append py_int]. rewrite append_empty_r.
  reflexivity.
Qed.

Lemma format_velocity a b :
  Format.pyformat "Vx = %.2f Vy = %.2f" [PyFloat a; PyFloat b] =
  Ok ("Vx = " +:+ Format.fixed 2 a +:+ " Vy = " +:+ Format.fixed 2 b).
Proof.
  cbv -[Format.fixed String.append]. rewrite append_empty_r. reflexivity.
Qed.

Lemma format_size_ratio a :
  Format.pyformat "size = %f" [PyFloat a] =
  Ok ("size = " +:+ Format.fixed 6 a).
Proof.
  cbv -[Format.fixed String.append]. rewrite append_empty_r. reflexivity.
Qed.

Lemma format_shift a :
  Format.pyformat "Shift = %.2f" [PyFloat a] =
  Ok ("Shift = " +:+ Format.fixed 2 a).
Proof.
  cbv -[Format.fixed String.append]. rewrite append_empty_r. reflexivity.
Qed.

(** The values a fresh track shows. *)
Example format_fresh_values :
  Format.pyformat "Vx = %.2f Vy = %.2f" [PyInt 0; PyInt 0] =
    Ok "Vx = 0.00 Vy = 0.00" ∧
  Format.pyformat "size = %f" [PyInt 1] = Ok "size = 1.000000" ∧
  Format.pyformat "x = %d  y = %d" [PyFloat (250 # 2); PyFloat 125] =
    Ok "x = 125  y = 125" ∧
  Format.pyformat "Shift = %.2f" [PyFloat (1 # 8)] = Ok "Shift = 0.12" ∧
  Format.pyformat "Shift = %.2f" [PyFloat (-3 # 8)] = Ok "Shift = -0.38".
Proof. vm_compute. repeat split. Qed.

(** ** Drawing on a frame *)

Lemma dl_call_draw_on img c st im :
  st !! img = Some im → dl_call img c st = (Ok tt, draw_on img [c] st).
Proof. intros H. unfold dl_call, draw_on. by rewrite H. Qed.

Lemma dl_call_no_frame img c st :
  st !! img = None → dl_call img c st = (Raise AttributeError, st).
Proof. intros H. unfold dl_call. by rewrite H. Qed.

Lemma draw_on_lookup img calls st im :
  st !! img = Some im →
  draw_on img calls st !! img =
  Some {| size_tuple := size_tuple im; layer := layer im ++ calls |}.
Proof. intros H. unfold draw_on. rewrite H. apply lookup_insert_eq. Qed.

Lemma draw_on_other img img' calls st :
  img ≠ img' → draw_on img calls st !! img' = st !! img'.
Proof.
  intros Hne. unfold draw_on. destruct (st !! img); [|done].
  by apply lookup_insert_ne.
Qed.

Lemma draw_on_app img calls1 calls2 st :
  draw_on img calls2 (draw_on img calls1 st) =
  draw_on img (calls1 ++ calls2) st.
Proof.
  unfold draw_on at 1. destruct (st !! img) as [im|] eqn:H.
  - rewrite (draw_on_lookup _ _ _ _ H). unfold draw_on. rewrite H. simpl.
    rewrite insert_insert_eq. by rewrite <- app_assoc.
  - unfold draw_on. rewrite H. by rewrite H.
Qed.

Lemma draw_on_nil img st : draw_on img [] st = st.
Proof.
  unfold draw_on. destruct (st !! img) as [im|] eqn:H; [|done].
  rewrite app_nil_r. destruct im. by apply insert_id.
Qed.

Lemma drawn_draw_on img calls st im :
  st !! img = Some im →
  drawn (draw_on img calls st) img = drawn st img ++ calls.
Proof.
  intros H. unfold drawn. rewrite (draw_on_lookup _ _ _ _ H). by rewrite H.
Qed.

(** ** Running a helper step by step *)

Lemma Py_bind_ok {A B} (m : Py A) (k : A → Py B) st a st' :
  m st = (Ok a, st') → (m ≫= k) st = k a st'.
Proof. intros H. cbv [mbind Py_bind]. by rewrite H. Qed.

Lemma Py_bind_raise {A B} (m : Py A) (k : A → Py B) st e st' :
  m st = (Raise e, st') → (m ≫= k) st = (Raise e, st').
Proof. intros H. cbv [mbind Py_bind]. by rewrite H. Qed.

Lemma lift_ok {A} (r : PyResult A) v st :
  r = Ok v → lift r st = (Ok v, st).
Proof. by intros ->. Qed.

Lemma getattr_ok {A} (slot : option A) v :
  slot = Some v → getattr slot = Ok v.
Proof. by intros ->. Qed.

Lemma default_pos_ok img im st dy :
  st !! img = Some im →
  (imgsize ← get_size_tuple img; mret [imgsize.1 - 120; dy]) st =
  (Ok [(size_tuple im).1 - 120; dy], st).
Proof.
  intros H. cbv [mbind Py_bind get_size_tuple mret Py_ret]. by rewrite H.
Qed.

Lemma if_not_pos_ok pos (dflt : Py (list Z)) d st :
  dflt st = (Ok [d.1; d.2], st) →
  if_not truthy_tuple (pos_arg pos) dflt st = (Ok (pos_or pos d), st).
Proof. intros H. destruct pos as [[px py]|]; [reflexivity | exact H]. Qed.

Lemma if_not_size_ok size st :
  if_not truthy_int size (mret 16) st = (Ok (size_or size 16), st).
Proof.
  destruct size as [|z]; [reflexivity|].
  unfold if_not, truthy_int, size_or. by destruct (z =? 0).
Qed.

(** One statement of a method body whose call returns. *)
Ltac py_step tac := erewrite Py_bind_ok; [cbv beta | solve [tac]].

Ltac py_attr H := apply lift_ok, getattr_ok, H.

Ltac frame_lookup H :=
  first [exact H | eapply draw_on_lookup; frame_lookup H].

Ltac py_draw H := eapply dl_call_draw_on; frame_lookup H.


Section Overlays.

Variables (img : ObjRef) (im : Image) (st : Store).
Hypothesis Hst : st !! img = Some im.
Variables (pos : option (Z * Z)) (color : option Color) (size : PyOpt Z).

Let W := (size_tuple im).1.

Lemma showCoordinates_spec t cx cy :
  Track.image t = Some img → Track.x t = Some cx → Track.y t = Some cy →
  Track.showCoordinates t (pos_arg pos) color size st =
  (Ok tt,
   draw_on img
     [set_font_size (size_or size 16);
      text ("x = " +:+ Format.str_int (py_int cx) +:+ "  y = "
            +:+ Format.str_int (py_int cy))
        (pos_or pos (W - 120, 10)) (or_default GREEN color)]
     st).
Proof.
  intros Himg Hx Hy. subst W. unfold Track.showCoordinates. cbv zeta.
  py_step ltac:(py_attr Himg).
  py_step ltac:(apply if_not_pos_ok with (d := ((size_tuple im).1 - 120, 10));
                apply default_pos_ok, Hst).
  py_step ltac:(apply if_not_size_ok).
  py_step ltac:(py_attr Hx).
  py_step ltac:(py_attr Hy).
  py_step ltac:(apply lift_ok, format_coordinates).
  py_step ltac:(py_draw Hst).
  erewrite dl_call_draw_on by frame_lookup Hst.
  by rewrite draw_on_app.
Qed.

Lemma showSizeRatio_spec t ratio s :
  Track.image t = Some img → Track.sizeRatio t = Some ratio →
  Format.pyformat "size = %f" [ratio] = Ok s →
  Track.showSizeRatio t (pos_arg pos) color size st =
  (Ok tt,
   draw_on img
     [set_font_size (size_or size 16);
      text s (pos_or pos (W - 120, 30)) (or_default GREEN color)]
     st).
Proof.
  intros Himg Hr Hs. subst W. unfold Track.showSizeRatio. cbv zeta.
  py_step ltac:(py_attr Himg).
  py_step ltac:(apply if_not_pos_ok with (d := ((size_tuple im).1 - 120, 30));
                apply default_pos_ok, Hst).
  py_step ltac:(apply if_not_size_ok).
  py_step ltac:(py_attr Hr).
  py_step ltac:(apply lift_ok, Hs).
  py_step ltac:(py_draw Hst).
  erewrite dl_call_draw_on by frame_lookup Hst.
  by rewrite draw_on_app.
Qed.

Lemma showPixelVelocity_spec t v s :
  Track.image t = Some img → Track.vel t = Some v →
  Format.pyformat "Vx = %.2f Vy = %.2f" [v.1; v.2] = Ok s →
  Track.showPixelVelocity t (pos_arg pos) color size st =
  (Ok tt,
   draw_on img
     [set_font_size (size_or size 16);
      text s (pos_or pos (W - 120, 90)) (or_default GREEN color);
      text "in pixels/frame"
        (caption_pos pos (W - 120, 90) (size_or size 16))
        (or_default GREEN color)]
     st).
Proof.
  intros Himg Hv Hs. subst W. unfold Track.showPixelVelocity. cbv zeta.
  py_step ltac:(py_attr Himg).
  py_step ltac:(py_attr Hv).
  py_step ltac:(apply if_not_pos_ok with (d := ((size_tuple im).1 - 120, 90));
                apply default_pos_ok, Hst).
  py_step ltac:(apply if_not_size_ok).
  py_step ltac:(apply lift_ok, Hs).
  py_step ltac:(py_draw Hst).
  py_step ltac:(py_draw Hst).
  destruct pos as [[px py]|].
  - py_step ltac:(apply lift_ok; reflexivity).
    py_step ltac:(apply lift_ok; reflexivity).
    erewrite dl_call_draw_on by frame_lookup Hst.
    by rewrite !draw_on_app.
  - py_step ltac:(apply lift_ok; reflexivity).
    py_step ltac:(apply lift_ok; reflexivity).
    erewrite dl_call_draw_on by frame_lookup Hst.
    by rewrite !draw_on_app.
Qed.

Lemma showPixelVelocityRT_spec t v s :
  Track.image t = Some img → Track.rt_vel t = Some v →
  Format.pyformat "Vx = %.2f Vy = %.2f" [v.1; v.2] = Ok s →
  Track.showPixelVelocityRT t (pos_arg pos) color size st =
  (Ok tt,
   draw_on img
     [set_font_size (size_or size 16);
      text s (pos_or pos (W - 120, 50)) (or_default GREEN color);
      text "in pixels/second"
        (caption_pos pos (W - 120, 50) (size_or size 16))
        (or_default GREEN color)]
     st).
Proof.
  intros Himg Hv Hs. subst W. unfold Track.showPixelVelocityRT. cbv zeta.
  py_step ltac:(py_attr Himg).
  py_step ltac:(py_attr Hv).
  py_step ltac:(apply if_not_pos_ok with (d := ((size_tuple im).1 - 120, 50));
                apply default_pos_ok, Hst).
  py_step ltac:(apply if_not_size_ok).
  py_step ltac:(apply lift_ok, Hs).
  py_step ltac:(py_draw Hst).
  py_step ltac:(py_draw Hst).
  destruct pos as [[px py]|].
  - py_step ltac:(apply lift_ok; reflexivity).
    py_step ltac:(apply lift_ok; reflexivity).
    erewrite dl_call_draw_on by frame_lookup Hst.
    by rewrite !draw_on_app.
  - py_step ltac:(apply lift_ok; reflexivity).
    py_step ltac:(apply lift_ok; reflexivity).
    erewrite dl_call_draw_on by frame_lookup Hst.
    by rewrite !draw_on_app.
Qed.

Lemma showShift_spec mf sh s :
  Track.image (MFTrack.base mf) = Some img → MFTrack.shift mf = Some sh →
  Format.pyformat "Shift = %.2f" [sh] = Ok s →
  MFTrack.showShift mf (pos_arg pos) color size st =
  (Ok tt,
   draw_on img
     [set_font_size (size_or size 16);
      text s (pos_or pos (W - 120, 50)) (or_default GREEN color);
      text "in pixels/second"
        (caption_pos pos (W - 120, 50) (size_or size 16))
        (or_default GREEN color)]
     st).
Proof.
  intros Himg Hsh Hs. subst W. unfold MFTrack.showShift. cbv zeta.
  py_step ltac:(py_attr Himg).
  py_step ltac:(py_attr Hsh).
  py_step ltac:(apply if_not_pos_ok with (d := ((size_tuple im).1 - 120, 50));
                apply default_pos_ok, Hst).
  py_step ltac:(apply if_not_size_ok).
  py_step ltac:(apply lift_ok, Hs).
  py_step ltac:(py_draw Hst).
  py_step ltac:(py_draw Hst).
  destruct pos as [[px py]|].
  - py_step ltac:(apply lift_ok; reflexivity).
    py_step ltac:(apply lift_ok; reflexivity).
    erewrite dl_call_draw_on by frame_lookup Hst.
    by rewrite !draw_on_app.
  - py_step ltac:(apply lift_ok; reflexivity).
    py_step ltac:(apply lift_ok; reflexivity).
    erewrite dl_call_draw_on by frame_lookup Hst.
    by rewrite !draw_on_app.
Qed.

End Overlays.

(** ** Marking the tracked points *)

Lemma for_each_circles img ps radius color thickness : ∀ st im,
  st !! img = Some im →
  for_each ps (λ pt,
    img' ← lift (getattr (Some img));
    dl_call img' (circle pt radius color thickness)) st =
  (Ok tt,
   draw_on img (map (λ pt, circle pt radius color thickness) ps) st).
Proof.
  induction ps as [|p ps IH]; intros st im Hst.
  - rewrite draw_on_nil. reflexivity.
  - cbn [for_each map].
    erewrite Py_bind_ok.
    2:{ erewrite Py_bind_ok by (apply lift_ok; reflexivity).
        cbv beta. eapply dl_call_draw_on, Hst. }
    cbv beta. erewrite IH by (eapply draw_on_lookup, Hst).
    by rewrite draw_on_app.
Qed.

(** With points and a frame, one circle per point, in order. *)
Lemma LKTrack_draws_points lk img im ps color radius thickness st :
  LKTrack.pts lk = Some (PyVal ps) →
  Track.image (LKTrack.base lk) = Some img →
  st !! img = Some im →
  LKTrack.drawTrackerPoints lk color radius thickness st =
  (Ok tt,
   draw_on img
     (map (λ pt, circle pt (or_default 1 radius) (or_default GREEN color)
                   (or_default 1 thickness)) ps) st).
Proof.
  intros Hpts Himg Hst. unfold LKTrack.drawTrackerPoints. cbv zeta.
  py_step ltac:(py_attr Hpts). rewrite Himg.
  by eapply for_each_circles.
Qed.

Lemma SURFTrack_draws_points surf img im ps color radius thickness st :
  SURFTrack.pts surf = Some (PyVal ps) →
  Track.image (SURFTrack.base surf) = Some img →
  st !! img = Some im →
  SURFTrack.drawTrackerPoints surf color radius thickness st =
  (Ok tt,
   draw_on img
     (map (λ pt, circle pt (or_default 1 radius) (or_default GREEN color)
                   (or_default 1 thickness)) ps) st).
Proof.
  intros Hpts Himg Hst. unfold SURFTrack.drawTrackerPoints. cbv zeta.
  py_step ltac:(py_attr Hpts). rewrite Himg.
  by eapply for_each_circles.
Qed.

(** An instance that never got a [pts] attribute cannot be drawn. *)
Lemma SURFTrack_draw_unset surf color radius thickness st :
  SURFTrack.pts surf = None →
  SURFTrack.drawTrackerPoints surf color radius thickness st =
  (Raise AttributeError, st).
Proof.
  intros Hpts. unfold SURFTrack.drawTrackerPoints. cbv zeta.
  erewrite Py_bind_raise; [reflexivity|]. by rewrite Hpts.
Qed.

(** C6. When the point collection of an [LKTrack] or of a [SURFTrack] is
    [None] or empty, [drawTrackerPoints] returns normally and leaves every
    frame, hence every drawing layer, as it was. *)
Theorem drawTrackerPoints_without_points (lk : LKTrack.t)
    (surf : SURFTrack.t) color radius thickness (st : Store) :
  LKTrack.pts lk = Some PyNone ∨ LKTrack.pts lk = Some (PyVal []) →
  SURFTrack.pts surf = Some PyNone ∨ SURFTrack.pts surf = Some (PyVal []) →
  LKTrack.drawTrackerPoints lk color radius thickness st = (Ok tt, st) ∧
  SURFTrack.drawTrackerPoints surf color radius thickness st = (Ok tt, st).
Proof.
  intros Hlk Hsurf. split.
  - unfold LKTrack.drawTrackerPoints. cbv zeta.
    destruct Hlk as [Hpts | Hpts];
      (py_step ltac:(py_attr Hpts)); reflexivity.
  - unfold SURFTrack.drawTrackerPoints. cbv zeta.
    destruct Hsurf as [Hpts | Hpts];
      (py_step ltac:(py_attr Hpts)); reflexivity.
Qed.

Lemma drawTrackerPoints_without_points_witness :
  LKTrack.drawTrackerPoints
    {| LKTrack.base := Track.new; LKTrack.pts := Some (PyVal []) |}
    None None None
    {[ 1%positive := {| size_tuple := (800, 600); layer := [] |} ]} =
  (Ok tt, {[ 1%positive := {| size_tuple := (800, 600); layer := [] |} ]}) ∧
  SURFTrack.drawTrackerPoints
    (SURFTrack.set_pts PyNone SURFTrack.new) None None None
    {[ 1%positive := {| size_tuple := (800, 600); layer := [] |} ]} =
  (Ok tt, {[ 1%positive := {| size_tuple := (800, 600); layer := [] |} ]}).
Proof.
  apply (drawTrackerPoints_without_points
           {| LKTrack.base := Track.new; LKTrack.pts := Some (PyVal []) |}
           (SURFTrack.set_pts PyNone SURFTrack.new)).
  - right. reflexivity.
  - left. reflexivity.
Defined.

(** ** Text overlays *)

(** C8. Every overlay helper sets the font size and writes its text. The
    text is the helper's template applied with [%]: [%d] twice for the
    coordinates, [%.2f] for each velocity component and for the shift, [%f]
    for the size ratio. An argument left out takes its default: font size
    16, [GREEN], and a position 120 pixels left of the right edge of the
    frame. On a frame of 800 by 600, [showCoordinates()] writes
    ["x = 125  y = 125"] at [(680, 10)] for the box [(100,100,50,50)]. *)
Theorem overlay_text_and_defaults (t : Track.t) (mf : MFTrack.t)
    (img : ObjRef) (im : Image) (st : Store) (pos : option (Z * Z))
    (color : option Color) (size : PyOpt Z) (cx cy : Q) (ratio : PyNum)
    (v vrt : PyNum * PyNum) (sh : PyNum) (s_ratio s_vel s_rt s_shift : string) :
  st !! img = Some im →
  Track.image t = Some img →
  Track.x t = Some cx →
  Track.y t = Some cy →
  Track.sizeRatio t = Some ratio →
  Track.vel t = Some v →
  Track.rt_vel t = Some vrt →
  Track.image (MFTrack.base mf) = Some img →
  MFTrack.shift mf = Some sh →
  Format.pyformat "size = %f" [ratio] = Ok s_ratio →
  Format.pyformat "Vx = %.2f Vy = %.2f" [v.1; v.2] = Ok s_vel →
  Format.pyformat "Vx = %.2f Vy = %.2f" [vrt.1; vrt.2] = Ok s_rt →
  Format.pyformat "Shift = %.2f" [sh] = Ok s_shift →
  (Format.pyformat "x = %d  y = %d" [PyFloat cx; PyFloat cy] =
     Ok ("x = " +:+ Format.str_int (py_int cx) +:+ "  y = "
         +:+ Format.str_int (py_int cy)) ∧
   Track.showCoordinates t (pos_arg pos) color size st =
     (Ok tt,
      draw_on img
        [set_font_size (size_or size 16);
         text ("x = " +:+ Format.str_int (py_int cx) +:+ "  y = "
               +:+ Format.str_int (py_int cy))
           (pos_or pos ((size_tuple im).1 - 120, 10))
           (or_default GREEN color)] st)) ∧
  Track.showSizeRatio t (pos_arg pos) color size st =
    (Ok tt,
     draw_on img
       [set_font_size (size_or size 16);
        text s_ratio (pos_or pos ((size_tuple im).1 - 120, 30))
          (or_default GREEN color)] st) ∧
  Track.showPixelVelocity t (pos_arg pos) color size st =
    (Ok tt,
     draw_on img
       [set_font_size (size_or size 16);
        text s_vel (pos_or pos ((size_tuple im).1 - 120, 90))
          (or_default GREEN color);
        text "in pixels/frame"
          (caption_pos pos ((size_tuple im).1 - 120, 90) (size_or size 16))
          (or_default GREEN color)] st) ∧
  Track.showPixelVelocityRT t (pos_arg pos) color size st =
    (Ok tt,
     draw_on img
       [set_font_size (size_or size 16);
        text s_rt (pos_or pos ((size_tuple im).1 - 120, 50))
          (or_default GREEN color);
        text "in pixels/second"
          (caption_pos pos ((size_tuple im).1 - 120, 50) (size_or size 16))
          (or_default GREEN color)] st) ∧
  MFTrack.showShift mf (pos_arg pos) color size st =
    (Ok tt,
     draw_on img
       [set_font_size (size_or size 16);
        text s_shift (pos_or pos ((size_tuple im).1 - 120, 50))
          (or_default GREEN color);
        text "in pixels/second"
          (caption_pos pos ((size_tuple im).1 - 120, 50) (size_or size 16))
          (or_default GREEN color)] st) ∧
  (Format.directives Format.in_text "x = %d  y = %d" =
     [Format.conv_d; Format.conv_d] ∧
   Format.directives Format.in_text "size = %f" = [Format.conv_f 6] ∧
   Format.directives Format.in_text "Vx = %.2f Vy = %.2f" =
     [Format.conv_f 2; Format.conv_f 2] ∧
   Format.directives Format.in_text "Shift = %.2f" = [Format.conv_f 2]) ∧
  (pos_arg None = PyNone ∧
   size_or PyNone 16 = 16 ∧
   or_default GREEN None = GREEN ∧
   ∀ dy, pos_or None ((size_tuple im).1 - 120, dy) =
         [(size_tuple im).1 - 120; dy]) ∧
  (∃ t0,
     Track.Track 0 1%positive [100; 100; 50; 50] = Ok t0 ∧
     Track.showCoordinates t0 PyNone None PyNone
       {[ 1%positive := {| size_tuple := (800, 600); layer := [] |} ]} =
     (Ok tt,
      {[ 1%positive :=
           {| size_tuple := (800, 600);
              layer := [set_font_size 16;
                        text "x = 125  y = 125" [680; 10] GREEN] |} ]})).
Proof.
  intros Hst Himg Hx Hy Hratio Hv Hvrt Hmf Hsh Hs_ratio Hs_vel Hs_rt Hs_shift.
  split; [split; [apply format_coordinates|]|].
  { by apply showCoordinates_spec. }
  split; [by eapply showSizeRatio_spec|].
  split; [by eapply showPixelVelocity_spec|].
  split; [by eapply showPixelVelocityRT_spec|].
  split; [by eapply showShift_spec|].
  split; [repeat split|].
  split; [repeat split|].
  unfold Track.Track. rewrite Track_init_box. eexists.
  split; [reflexivity|]. vm_compute. reflexivity.
Qed.

Lemma overlay_text_and_defaults_witness :
  ∃ t mf,
    Track.Track 0 1%positive [100; 100; 50; 50] = Ok t ∧
    MFTrack.MFTrack 0 1%positive [100; 100; 50; 50] (PyFloat (1 # 8))
      = Ok mf ∧
    Track.showPixelVelocity t PyNone None PyNone
      {[ 1%positive := {| size_tuple := (800, 600); layer := [] |} ]} =
    (Ok tt,
     draw_on 1%positive
       [set_font_size 16;
        text "Vx = 0.00 Vy = 0.00" [680; 90] GREEN;
        text "in pixels/frame" [680; 106] GREEN]
       {[ 1%positive := {| size_tuple := (800, 600); layer := [] |} ]}) ∧
    MFTrack.showShift mf PyNone None PyNone
      {[ 1%positive := {| size_tuple := (800, 600); layer := [] |} ]} =
    (Ok tt,
     draw_on 1%positive
       [set_font_size 16;
        text "Shift = 0.12" [680; 50] GREEN;
        text "in pixels/second" [680; 66] GREEN]
       {[ 1%positive := {| size_tuple := (800, 600); layer := [] |} ]}).
Proof.
  unfold Track.Track, MFTrack.MFTrack, MFTrack.__init__.
  change (MFTrack.base MFTrack.new) with Track.new.
  rewrite Track_init_box. cbv [mbind PyResult_bind]. eexists _, _.
  split; [reflexivity|]. split; [reflexivity|].
  match goal with
  | |- Track.showPixelVelocity ?t _ _ _ ?st = _ ∧
       MFTrack.showShift ?mf _ _ _ _ = _ =>
      pose proof (overlay_text_and_defaults t mf 1%positive
                    {| size_tuple := (800, 600); layer := [] |} st
                    None None PyNone (250 # 2) (250 # 2) (PyInt 1)
                    (PyInt 0, PyInt 0) (PyInt 0, PyInt 0) (PyFloat (1 # 8))
                    "size = 1.000000" "Vx = 0.00 Vy = 0.00"
                    "Vx = 0.00 Vy = 0.00" "Shift = 0.12") as H
  end.
  destruct H as (_ & _ & Hvel & _ & Hshift & _);
    try (vm_compute; reflexivity).
  split; [exact Hvel | exact Hshift].
Defined.

(** * Further properties of the classes *)

(** ** Construction *)

(** X1. A bounding box that is not a tuple of four elements cannot be
    unpacked: the constructor of [Track] and of every subclass that takes
    a box raises [ValueError], and no instance exists. *)
Theorem constructors_reject_malformed_box clock img (bb : list Z) e pts sh :
  length bb ≠ 4%nat →
  Track.Track clock img bb = Raise ValueError ∧
  CAMShiftTrack.CAMShiftTrack clock img bb e = Raise ValueError ∧
  LKTrack.LKTrack clock img bb pts = Raise ValueError ∧
  MFTrack.MFTrack clock img bb sh = Raise ValueError.
Proof.
  intros Hlen.
  pose proof (Track_init_bad_tuple clock Track.new img bb Hlen) as Hraise.
  unfold Track.Track, CAMShiftTrack.CAMShiftTrack, CAMShiftTrack.__init__,
    LKTrack.LKTrack, LKTrack.__init__, MFTrack.MFTrack, MFTrack.__init__.
  change (CAMShiftTrack.base CAMShiftTrack.new) with Track.new.
  change (LKTrack.base LKTrack.new) with Track.new.
  change (MFTrack.base MFTrack.new) with Track.new.
  rewrite Hraise. repeat split.
Qed.

Lemma constructors_reject_malformed_box_witness :
  Track.Track 0 1%positive [100; 100; 50] = Raise ValueError ∧
  CAMShiftTrack.CAMShiftTrack 0 1%positive [100; 100; 50]
    ((0, 0)%Q, (1, 1)%Q, 0%Q) = Raise ValueError ∧
  LKTrack.LKTrack 0 1%positive [100; 100; 50] PyNone = Raise ValueError ∧
  MFTrack.MFTrack 0 1%positive [100; 100; 50] (PyInt 0) = Raise ValueError.
Proof.
  apply (constructors_reject_malformed_box 0 1%positive [100; 100; 50]).
  simpl. lia.
Defined.

(** X2. A [SURFTrack] built without template descriptor carries none of
    the attributes its accessors read: each of the eight accessors raises
    [AttributeError], and so does [drawTrackerPoints], before it draws
    anything. *)
Theorem SURFTrack_without_template_accessors cv2_kmeans clock img new_pts
    detector descriptor templateImg skp sd tkp :
  ∃ t,
    SURFTrack.SURFTrack cv2_kmeans clock img new_pts detector descriptor
      templateImg skp sd tkp PyNone = Ok t ∧
    SURFTrack.getTrackedPoints t = Raise AttributeError ∧
    SURFTrack.getDetector t = Raise AttributeError ∧
    SURFTrack.getDescriptor t = Raise AttributeError ∧
    SURFTrack.getImageKeyPoints t = Raise AttributeError ∧
    SURFTrack.getImageDescriptor t = Raise AttributeError ∧
    SURFTrack.getTemplateKeyPoints t = Raise AttributeError ∧
    SURFTrack.getTemplateDescriptor t = Raise AttributeError ∧
    SURFTrack.getTemplateImage t = Raise AttributeError ∧
    ∀ color radius thickness st,
      SURFTrack.drawTrackerPoints t color radius thickness st =
      (Raise AttributeError, st).
Proof.
  rewrite SURF_no_template by reflexivity.
  rewrite Track_init_box. cbv [mbind PyResult_bind].
  eexists. split; [reflexivity|].
  repeat (split; [reflexivity|]).
  intros color radius thickness st. by apply SURFTrack_draw_unset.
Qed.

(** X3. What a subclass constructor is given, its accessor gives back: the
    ellipse of a [CAMShiftTrack], the points of an [LKTrack] ([None]
    included), the shift of an [MFTrack]; each also holds the frame it was
    built from. *)
Theorem subclass_accessors_return_arguments clock img bb e pts sh tc tl tm :
  CAMShiftTrack.CAMShiftTrack clock img bb e = Ok tc →
  LKTrack.LKTrack clock img bb pts = Ok tl →
  MFTrack.MFTrack clock img bb sh = Ok tm →
  CAMShiftTrack.getEllipse tc = Ok e ∧
  LKTrack.getTrackedPoints tl = Ok pts ∧
  MFTrack.getShift tm = Ok sh ∧
  Track.getImage (CAMShiftTrack.base tc) = Ok img ∧
  Track.getImage (LKTrack.base tl) = Ok img ∧
  Track.getImage (MFTrack.base tm) = Ok img.
Proof.
  intros [Hc He]%CAMShiftTrack_inv [Hl Hp]%LKTrack_inv [Hm Hs]%MFTrack_inv.
  unfold CAMShiftTrack.getEllipse, LKTrack.getTrackedPoints, MFTrack.getShift.
  rewrite He, Hp, Hs.
  rewrite (Track_init_getImage _ _ _ _ _ Hc), (Track_init_getImage _ _ _ _ _ Hl),
    (Track_init_getImage _ _ _ _ _ Hm).
  repeat split.
Qed.

Lemma subclass_accessors_return_arguments_witness :
  ∃ tc tl tm,
    CAMShiftTrack.getEllipse tc = Ok ((125, 125)%Q, (50, 50)%Q, 30%Q) ∧
    LKTrack.getTrackedPoints tl = Ok (PyVal [(1, 2)%Q]) ∧
    MFTrack.getShift tm = Ok (PyFloat (1 # 8)).
Proof.
  pose (bb := [100; 100; 50; 50]).
  destruct (CAMShiftTrack.CAMShiftTrack 0 1%positive bb
              ((125, 125)%Q, (50, 50)%Q, 30%Q)) as [tc|] eqn:Hc;
    [|vm_compute in Hc; discriminate].
  destruct (LKTrack.LKTrack 0 1%positive bb (PyVal [(1, 2)%Q]))
    as [tl|] eqn:Hl; [|vm_compute in Hl; discriminate].
  destruct (MFTrack.MFTrack 0 1%positive bb (PyFloat (1 # 8)))
    as [tm|] eqn:Hm; [|vm_compute in Hm; discriminate].
  exists tc, tl, tm.
  destruct (subclass_accessors_return_arguments _ _ _ _ _ _ _ _ _ Hc Hl Hm)
    as (H1 & H2 & H3 & _).
  split; [exact H1|]. split; [exact H2 | exact H3].
Defined.

(** ** Geometry *)

(** X5. The geometry is taken from the box once, at construction. When the
    caller later assigns another tuple to [bb], [getBB()] returns the new
    tuple while [getCenter()], [area] and the stored [center] stay what
    they were; when the caller assigns [w] and [h], [area] and
    [getCenter()] become those of a track built from the new size, but the
    stored [center], which the overlays and markers use, and [getBB()] do
    not move. *)
Theorem geometry_is_not_resynchronised clock img x y w h t bb' w' h' t' :
  Track.Track clock img [x; y; w; h] = Ok t →
  Track.Track clock img [x; y; w'; h'] = Ok t' →
  (Track.getBB (Track.set_bb bb' t) = Ok bb' ∧
   Track.getCenter (Track.set_bb bb' t) = Track.getCenter t ∧
   Track.area (Track.set_bb bb' t) = Ok (w * h) ∧
   Track.center (Track.set_bb bb' t) = Track.center t) ∧
  (Track.area (Track.set_h h' (Track.set_w w' t)) = Ok (w' * h') ∧
   Track.getCenter (Track.set_h h' (Track.set_w w' t)) =
     Track.getCenter t' ∧
   Track.center (Track.set_h h' (Track.set_w w' t)) = Track.center t ∧
   Track.getBB (Track.set_h h' (Track.set_w w' t)) = Ok [x; y; w; h]).
Proof.
  unfold Track.Track. rewrite !Track_init_box. intros [= <-] [= <-].
  repeat split.
Qed.

Lemma geometry_is_not_resynchronised_witness :
  ∃ t, Track.Track 0 1%positive [100; 100; 50; 50] = Ok t ∧
       Track.getBB (Track.set_bb [0; 0; 10; 10] t) = Ok [0; 0; 10; 10] ∧
       Track.area (Track.set_bb [0; 0; 10; 10] t) = Ok (50 * 50) ∧
       Track.center (Track.set_bb [0; 0; 10; 10] t) = Track.center t.
Proof.
  unfold Track.Track. rewrite Track_init_box. eexists.
  split; [reflexivity|].
  match goal with
  | |- Track.getBB (Track.set_bb _ ?t) = _ ∧ _ =>
      destruct (geometry_is_not_resynchronised 0 1%positive 100 100 50 50
                  t [0; 0; 10; 10] 50 50 t) as [(H1 & _ & H3 & H4) _]
  end.
  - unfold Track.Track. apply Track_init_box.
  - unfold Track.Track. apply Track_init_box.
  - split; [exact H1|]. split; [exact H3 | exact H4].
Defined.

(** ** The box of [SURFTrack] *)

(** Truncation toward zero keeps the order. *)
Lemma py_int_mono p q : (p <= q)%Q → py_int p ≤ py_int q.
Proof.
  intros Hpq. destruct (Qlt_le_dec p 0) as [Hp | Hp];
    destruct (Qlt_le_dec q 0) as [Hq | Hq].
  - rewrite !py_int_neg by (by apply Qlt_le_weak).
    by apply Qceiling_resp_le.
  - rewrite py_int_neg by (by apply Qlt_le_weak).
    rewrite py_int_nonneg by done.
    transitivity 0.
    + change 0 with (Qceiling 0). apply Qceiling_resp_le.
      by apply Qlt_le_weak.
    + change 0 with (Qfloor 0). by apply Qfloor_resp_le.
  - exfalso. apply (Qlt_irrefl 0).
    eapply Qle_lt_trans; [exact Hp|]. by eapply Qle_lt_trans.
  - rewrite !py_int_nonneg by done. by apply Qfloor_resp_le.
Qed.

Lemma is_min_le_is_max a b xs : is_min a xs → is_max b xs → (a <= b)%Q.
Proof.
  intros [Ha _] [_ Hall]. rewrite List.Forall_forall in Hall. auto.
Qed.

(** X6. A box derived from match points is at least five pixels wide and
    five pixels high, so its area is at least 25 and it is never the
    placeholder box [(1,1,1,1)] of the branches that found nothing. *)
Theorem SURFTrack_box_is_never_the_placeholder cv2_kmeans clock img new_pts
    detector descriptor templateImg skp sdv tkp tdv out :
  new_pts ≠ [] →
  cv2_kmeans (map pt new_pts) = Ok out →
  ∃ t bx by_ w h,
    SURFTrack.SURFTrack cv2_kmeans clock img new_pts detector descriptor
      templateImg skp (PyVal sdv) tkp (PyVal tdv) = Ok t ∧
    Track.getBB (SURFTrack.base t) = Ok [bx; by_; w; h] ∧
    Track.area (SURFTrack.base t) = Ok (w * h) ∧
    5 ≤ w ∧ 5 ≤ h ∧ 25 ≤ w * h ∧
    Track.getBB (SURFTrack.base t) ≠ Ok [1; 1; 1; 1].
Proof.
  intros Hne Hkm.
  assert (Hx : map fst (map pt new_pts) ≠ [])
    by (destruct new_pts; [done | discriminate]).
  assert (Hy : map snd (map pt new_pts) ≠ [])
    by (destruct new_pts; [done | discriminate]).
  destruct (py_max_spec _ Hx) as (max_x & _ & Hmax_x).
  destruct (py_min_spec _ Hx) as (min_x & _ & Hmin_x).
  destruct (py_max_spec _ Hy) as (max_y & _ & Hmax_y).
  destruct (py_min_spec _ Hy) as (min_y & _ & Hmin_y).
  rewrite (SURF_valid_box _ _ _ _ _ _ _ _ _ _ _ _ _ _ _ _
             Hne Hkm Hmin_x Hmin_y Hmax_x Hmax_y).
  rewrite Track_init_box. cbv [mbind PyResult_bind].
  pose proof (py_int_mono _ _ (is_min_le_is_max _ _ _ Hmin_x Hmax_x)) as Hw.
  pose proof (py_int_mono _ _ (is_min_le_is_max _ _ _ Hmin_y Hmax_y)) as Hh.
  eexists. eexists _, _, _, _.
  split; [reflexivity|]. split; [reflexivity|]. split; [reflexivity|].
  split; [lia|]. split; [lia|]. split; [nia|].
  intros [= _ _ Hone _]. lia.
Qed.

Lemma SURFTrack_box_is_never_the_placeholder_witness :
  ∃ t bx by_ w h,
    SURFTrack.SURFTrack (λ _, Ok (0%Q, [0], [(21 # 2, 41 # 2)])) 0
      1%positive [{| pt := (21 # 2, 41 # 2); size := 1; angle := 0 |}]
      2%positive 3%positive 4%positive [] (PyVal [[1%Q]]) []
      (PyVal [[1%Q]]) = Ok t ∧
    Track.getBB (SURFTrack.base t) = Ok [bx; by_; w; h] ∧ 5 ≤ w ∧ 5 ≤ h.
Proof.
  destruct (SURFTrack_box_is_never_the_placeholder
              (λ _, Ok (0%Q, [0], [(21 # 2, 41 # 2)])) 0
              1%positive [{| pt := (21 # 2, 41 # 2); size := 1; angle := 0 |}]
              2%positive 3%positive 4%positive [] [[1%Q]] [] [[1%Q]]
              (0%Q, [0], [(21 # 2, 41 # 2)]))
    as (t & bx & by_ & w & h & Ht & Hbb & _ & Hw & Hh & _).
  - discriminate.
  - reflexivity.
  - exists t, bx, by_, w, h. auto.
Defined.

(** X7. The box covers the match points: when no coordinate is negative,
    every match point lies at least five pixels inside the left and top
    edge, and less than one pixel beyond the right and bottom edge (the
    part of the largest coordinate that [int] cut off). *)
Theorem SURFTrack_box_covers_points cv2_kmeans clock img new_pts detector
    descriptor templateImg skp sdv tkp tdv out :
  new_pts ≠ [] →
  cv2_kmeans (map pt new_pts) = Ok out →
  Forall (λ p : Point, (0 <= p.1)%Q ∧ (0 <= p.2)%Q) (map pt new_pts) →
  ∃ t bx by_ w h,
    SURFTrack.SURFTrack cv2_kmeans clock img new_pts detector descriptor
      templateImg skp (PyVal sdv) tkp (PyVal tdv) = Ok t ∧
    Track.getBB (SURFTrack.base t) = Ok [bx; by_; w; h] ∧
    Forall (λ p : Point,
              (inject_Z (bx + 5) <= p.1)%Q ∧
              (p.1 < inject_Z (bx + w + 1))%Q ∧
              (inject_Z (by_ + 5) <= p.2)%Q ∧
              (p.2 < inject_Z (by_ + h + 1))%Q)
           (map pt new_pts).
Proof.
  intros Hne Hkm Hpos.
  assert (Hx : map fst (map pt new_pts) ≠ [])
    by (destruct new_pts; [done | discriminate]).
  assert (Hy : map snd (map pt new_pts) ≠ [])
    by (destruct new_pts; [done | discriminate]).
  destruct (py_max_spec _ Hx) as (max_x & _ & Hmax_x).
  destruct (py_min_spec _ Hx) as (min_x & _ & Hmin_x).
  destruct (py_max_spec _ Hy) as (max_y & _ & Hmax_y).
  destruct (py_min_spec _ Hy) as (min_y & _ & Hmin_y).
  rewrite (SURF_valid_box _ _ _ _ _ _ _ _ _ _ _ _ _ _ _ _
             Hne Hkm Hmin_x Hmin_y Hmax_x Hmax_y).
  rewrite Track_init_box. cbv [mbind PyResult_bind].
  eexists. eexists _, _, _, _.
  split; [reflexivity|]. split; [reflexivity|].
  rewrite List.Forall_forall in Hpos |- *.
  intros p Hp. destruct (Hpos p Hp) as [Hp1 Hp2].
  assert (Hin1 : In p.1 (map fst (map pt new_pts))) by (by apply in_map).
  assert (Hin2 : In p.2 (map snd (map pt new_pts))) by (by apply in_map).
  destruct Hmin_x as [Hmx_in Hmx]. destruct Hmax_x as [HMx_in HMx].
  destruct Hmin_y as [Hmy_in Hmy]. destruct Hmax_y as [HMy_in HMy].
  rewrite List.Forall_forall in Hmx, HMx, Hmy, HMy.
  assert (Hmx0 : (0 <= min_x)%Q).
  { apply in_map_iff in Hmx_in as (p' & <- & Hp').
    by destruct (Hpos p' Hp'). }
  assert (Hmy0 : (0 <= min_y)%Q).
  { apply in_map_iff in Hmy_in as (p' & <- & Hp').
    by destruct (Hpos p' Hp'). }
  assert (HMx0 : (0 <= max_x)%Q) by (eapply Qle_trans; [exact Hp1 | auto]).
  assert (HMy0 : (0 <= max_y)%Q) by (eapply Qle_trans; [exact Hp2 | auto]).
  destruct (py_int_bounds _ Hmx0) as [Hlo_x _].
  destruct (py_int_bounds _ Hmy0) as [Hlo_y _].
  destruct (py_int_bounds _ HMx0) as [_ Hhi_x].
  destruct (py_int_bounds _ HMy0) as [_ Hhi_y].
  replace (py_int min_x - 5 + 5) with (py_int min_x) by lia.
  replace (py_int min_y - 5 + 5) with (py_int min_y) by lia.
  replace (py_int min_x - 5 + (py_int max_x - py_int min_x + 5) + 1)
    with (py_int max_x + 1) by lia.
  replace (py_int min_y - 5 + (py_int max_y - py_int min_y + 5) + 1)
    with (py_int max_y + 1) by lia.
  split; [eapply Qle_trans; [exact Hlo_x | auto]|].
  split; [eapply Qle_lt_trans; [apply HMx, Hin1 | exact Hhi_x]|].
  split; [eapply Qle_trans; [exact Hlo_y | auto]|].
  eapply Qle_lt_trans; [apply HMy, Hin2 | exact Hhi_y].
Qed.

Lemma SURFTrack_box_covers_points_witness :
  ∃ t bx by_ w h,
    SURFTrack.SURFTrack (λ _, Ok (0%Q, [0], [(21 # 2, 41 # 2)])) 0
      1%positive [{| pt := (21 # 2, 41 # 2); size := 1; angle := 0 |}]
      2%positive 3%positive 4%positive [] (PyVal [[1%Q]]) []
      (PyVal [[1%Q]]) = Ok t ∧
    Track.getBB (SURFTrack.base t) = Ok [bx; by_; w; h] ∧
    (inject_Z (bx + 5) <= 21 # 2)%Q ∧ (21 # 2 < inject_Z (bx + w + 1))%Q.
Proof.
  destruct (SURFTrack_box_covers_points
              (λ _, Ok (0%Q, [0], [(21 # 2, 41 # 2)])) 0
              1%positive [{| pt := (21 # 2, 41 # 2); size := 1; angle := 0 |}]
              2%positive 3%positive 4%positive [] [[1%Q]] [] [[1%Q]]
              (0%Q, [0], [(21 # 2, 41 # 2)]))
    as (t & bx & by_ & w & h & Ht & Hbb & Hall).
  - discriminate.
  - reflexivity.
  - repeat constructor; Qle_decide.
  - exists t, bx, by_, w, h. split; [exact Ht|]. split; [exact Hbb|].
    inversion Hall as [|? ? (H1 & H2 & _) _]; subst. split; assumption.
Defined.

(** X8. [cv2.kmeans] is consulted only when a template descriptor, match
    points and an image descriptor are all there. In that case an
    exception of the clustering call reaches the caller as it is and no
    instance is built; in every other case the constructor returns the
    same instance whatever the clustering would have done. *)
Theorem SURFTrack_kmeans_failure_propagates :
  (∀ cv2_kmeans clock img new_pts detector descriptor templateImg skp sdv
      tkp tdv err,
     new_pts ≠ [] →
     cv2_kmeans (map pt new_pts) = Raise err →
     SURFTrack.SURFTrack cv2_kmeans clock img new_pts detector descriptor
       templateImg skp (PyVal sdv) tkp (PyVal tdv) = Raise err) ∧
  (∀ kmeans1 kmeans2 clock img new_pts detector descriptor templateImg skp
      sd tkp td,
     td = PyNone ∨ new_pts = [] ∨ sd = PyNone →
     SURFTrack.SURFTrack kmeans1 clock img new_pts detector descriptor
       templateImg skp sd tkp td =
     SURFTrack.SURFTrack kmeans2 clock img new_pts detector descriptor
       templateImg skp sd tkp td).
Proof.
  split.
  - intros * Hne Hkm. by apply SURF_kmeans_raises.
  - intros * Hcase. destruct td as [|tdv].
    + by rewrite !SURF_no_template.
    + destruct Hcase as [Htd | [-> | ->]]; [discriminate| |].
      * rewrite !SURF_degenerate by (done || (left; simpl; lia)).
        reflexivity.
      * rewrite !SURF_degenerate by (done || by right). reflexivity.
Qed.

Lemma SURFTrack_kmeans_failure_propagates_witness :
  SURFTrack.SURFTrack (λ _, Raise cv2_error) 0 1%positive
    [{| pt := (10, 20)%Q; size := 1; angle := 0 |}]
    2%positive 3%positive 4%positive [] (PyVal [[1%Q]]) []
    (PyVal [[1%Q]]) = Raise cv2_error ∧
  SURFTrack.SURFTrack (λ _, Raise cv2_error) 0 1%positive
    [] 2%positive 3%positive 4%positive [] (PyVal [[1%Q]]) []
    (PyVal [[1%Q]]) =
  SURFTrack.SURFTrack (λ _, Ok (0%Q, [0], [(0, 0)%Q])) 0 1%positive
    [] 2%positive 3%positive 4%positive [] (PyVal [[1%Q]]) []
    (PyVal [[1%Q]]).
Proof.
  split.
  - apply (proj1 SURFTrack_kmeans_failure_propagates);
      [discriminate | reflexivity].
  - apply (proj2 SURFTrack_kmeans_failure_propagates).
    right. left. reflexivity.
Defined.

(** ** Drawing *)

Lemma appended_draw_on img calls st im :
  st !! img = Some im → appended img calls st (draw_on img calls st).
Proof.
  intros Hst. split; [by eapply drawn_draw_on|]. split.
  - rewrite (draw_on_lookup _ _ _ _ Hst), Hst. reflexivity.
  - intros img' Hne. by apply draw_on_other.
Qed.

(** X9. With a frame and a collection of points, [drawTrackerPoints] of
    [LKTrack] and of [SURFTrack] appends exactly one circle per point, in
    the order of the collection, with the radius, colour and thickness
    given (1, [GREEN], 1 when left out); it keeps what was drawn before and
    touches no other frame. *)
Theorem drawTrackerPoints_draws_each_point (lk : LKTrack.t)
    (surf : SURFTrack.t) img im ps color radius thickness (st : Store) :
  st !! img = Some im →
  LKTrack.pts lk = Some (PyVal ps) →
  Track.image (LKTrack.base lk) = Some img →
  SURFTrack.pts surf = Some (PyVal ps) →
  Track.image (SURFTrack.base surf) = Some img →
  ∃ st',
    LKTrack.drawTrackerPoints lk color radius thickness st = (Ok tt, st') ∧
    SURFTrack.drawTrackerPoints surf color radius thickness st
      = (Ok tt, st') ∧
    appended img
      (map (λ p, circle p (or_default 1 radius) (or_default GREEN color)
                   (or_default 1 thickness)) ps) st st' ∧
    length (drawn st' img) = (length (drawn st img) + length ps)%nat.
Proof.
  intros Hst Hlk Hlk_img Hsurf Hsurf_img.
  eexists. split; [by eapply LKTrack_draws_points|].
  split; [by eapply SURFTrack_draws_points|].
  split; [by eapply appended_draw_on|].
  rewrite (drawn_draw_on _ _ _ _ Hst).
  by rewrite length_app, length_map.
Qed.

Lemma drawTrackerPoints_draws_each_point_witness :
  ∃ st',
    LKTrack.drawTrackerPoints
      {| LKTrack.base := Track.set_image 1%positive Track.new;
         LKTrack.pts := Some (PyVal [(1, 2)%Q; (3, 4)%Q]) |}
      None None None
      {[ 1%positive := {| size_tuple := (800, 600); layer := [] |} ]}
      = (Ok tt, st') ∧
    length (drawn st' 1%positive) = 2%nat.
Proof.
  destruct (drawTrackerPoints_draws_each_point
              {| LKTrack.base := Track.set_image 1%positive Track.new;
                 LKTrack.pts := Some (PyVal [(1, 2)%Q; (3, 4)%Q]) |}
              (SURFTrack.set_pts (PyVal [(1, 2)%Q; (3, 4)%Q])
                 (SURFTrack.set_base (Track.set_image 1%positive Track.new)
                    SURFTrack.new))
              1%positive {| size_tuple := (800, 600); layer := [] |}
              [(1, 2)%Q; (3, 4)%Q] None None None
              {[ 1%positive := {| size_tuple := (800, 600); layer := [] |} ]})
    as (st' & Hlk & _ & _ & Hlen); try reflexivity.
  exists st'. split; [exact Hlk | exact Hlen].
Defined.

(** X10. From construction to drawing: a [SURFTrack] built from match
    points marks every match point at its own, untruncated coordinates,
    one circle per key point and in their order, although its box was
    computed from truncated extents. *)
Theorem SURFTrack_marks_its_match_points cv2_kmeans clock img im new_pts
    detector descriptor templateImg skp sdv tkp tdv out color radius
    thickness (st : Store) :
  new_pts ≠ [] →
  cv2_kmeans (map pt new_pts) = Ok out →
  st !! img = Some im →
  ∃ t st',
    SURFTrack.SURFTrack cv2_kmeans clock img new_pts detector descriptor
      templateImg skp (PyVal sdv) tkp (PyVal tdv) = Ok t ∧
    SURFTrack.drawTrackerPoints t color radius thickness st = (Ok tt, st') ∧
    appended img
      (map (λ kp, circle (pt kp) (or_default 1 radius)
                    (or_default GREEN color) (or_default 1 thickness))
           new_pts) st st'.
Proof.
  intros Hne Hkm Hst.
  destruct (SURF_valid cv2_kmeans clock img new_pts detector descriptor
              templateImg skp tkp sdv tdv out Hne Hkm)
    as (max_x & min_x & max_y & min_y & _ & _ & _ & _ & ->).
  rewrite Track_init_box. cbv [mbind PyResult_bind].
  eexists. eexists. split; [reflexivity|]. split.
  - eapply SURFTrack_draws_points; [reflexivity | reflexivity | exact Hst].
  - rewrite map_map. by eapply appended_draw_on.
Qed.

Lemma SURFTrack_marks_its_match_points_witness :
  ∃ t st',
    SURFTrack.SURFTrack (λ _, Ok (0%Q, [0], [(21 # 2, 41 # 2)])) 0
      1%positive [{| pt := (21 # 2, 41 # 2); size := 1; angle := 0 |}]
      2%positive 3%positive 4%positive [] (PyVal [[1%Q]]) []
      (PyVal [[1%Q]]) = Ok t ∧
    SURFTrack.drawTrackerPoints t None None None
      {[ 1%positive := {| size_tuple := (800, 600); layer := [] |} ]}
      = (Ok tt, st') ∧
    drawn st' 1%positive = [circle (21 # 2, 41 # 2) 1 GREEN 1].
Proof.
  destruct (SURFTrack_marks_its_match_points
              (λ _, Ok (0%Q, [0], [(21 # 2, 41 # 2)])) 0 1%positive
              {| size_tuple := (800, 600); layer := [] |}
              [{| pt := (21 # 2, 41 # 2); size := 1; angle := 0 |}]
              2%positive 3%positive 4%positive [] [[1%Q]] [] [[1%Q]]
              (0%Q, [0], [(21 # 2, 41 # 2)]) None None None
              {[ 1%positive := {| size_tuple := (800, 600); layer := [] |} ]})
    as (t & st' & Ht & Hdraw & Happ & _).
  - discriminate.
  - reflexivity.
  - reflexivity.
  - exists t, st'. split; [exact Ht|]. split; [exact Hdraw | exact Happ].
Defined.

(** X11. When the frame reference of a track names no frame,
    [drawTrackerPoints] on a non-empty collection raises [AttributeError]
    at the first point and nothing is drawn anywhere. *)
Theorem drawTrackerPoints_without_frame (lk : LKTrack.t) (surf : SURFTrack.t)
    img p ps color radius thickness (st : Store) :
  st !! img = None →
  LKTrack.pts lk = Some (PyVal (p :: ps)) →
  Track.image (LKTrack.base lk) = Some img →
  SURFTrack.pts surf = Some (PyVal (p :: ps)) →
  Track.image (SURFTrack.base surf) = Some img →
  LKTrack.drawTrackerPoints lk color radius thickness st
    = (Raise AttributeError, st) ∧
  SURFTrack.drawTrackerPoints surf color radius thickness st
    = (Raise AttributeError, st).
Proof.
  intros Hst Hlk Hlk_img Hsurf Hsurf_img. split.
  - unfold LKTrack.drawTrackerPoints. cbv zeta.
    py_step ltac:(py_attr Hlk). rewrite Hlk_img. cbn [for_each].
    erewrite Py_bind_raise; [reflexivity|].
    erewrite Py_bind_ok by (apply lift_ok; reflexivity). cbv beta.
    by apply dl_call_no_frame.
  - unfold SURFTrack.drawTrackerPoints. cbv zeta.
    py_step ltac:(py_attr Hsurf). rewrite Hsurf_img. cbn [for_each].
    erewrite Py_bind_raise; [reflexivity|].
    erewrite Py_bind_ok by (apply lift_ok; reflexivity). cbv beta.
    by apply dl_call_no_frame.
Qed.

Lemma drawTrackerPoints_without_frame_witness :
  LKTrack.drawTrackerPoints
    {| LKTrack.base := Track.set_image 1%positive Track.new;
       LKTrack.pts := Some (PyVal [(1, 2)%Q]) |} None None None ∅
    = (Raise AttributeError, ∅).
Proof.
  apply (drawTrackerPoints_without_frame
           {| LKTrack.base := Track.set_image 1%positive Track.new;
              LKTrack.pts := Some (PyVal [(1, 2)%Q]) |}
           (SURFTrack.set_pts (PyVal [(1, 2)%Q])
              (SURFTrack.set_base (Track.set_image 1%positive Track.new)
                 SURFTrack.new))
           1%positive (1, 2)%Q [] None None None ∅); reflexivity.
Defined.

(** X12. The three markers draw one circle each, at three different
    points: [draw] at the center computed from the box at construction
    (the exact midpoint, for coordinates of magnitude at most [2^51]),
    [drawPredicted] at the predicted point and [drawCorrected] at the
    corrected point, which are whatever the caller assigned after
    construction. Assigning them does not move the center. *)
Theorem markers_draw_one_circle clock img im x y w h t0 p s color rad
    thickness (st : Store) :
  Z.abs x ≤ 2 ^ 51 → Z.abs y ≤ 2 ^ 51 →
  Z.abs w ≤ 2 ^ 51 → Z.abs h ≤ 2 ^ 51 →
  Track.Track clock img [x; y; w; h] = Ok t0 →
  st !! img = Some im →
  ∃ cx cy,
    (cx == inject_Z x + inject_Z w / 2)%Q ∧
    (cy == inject_Z y + inject_Z h / 2)%Q ∧
    Track.draw (Track.set_state_pt s (Track.set_predict_pt p t0))
      color rad thickness st =
      (Ok tt,
       draw_on img
         [circle (cx, cy) (or_default 1 rad) (or_default GREEN color)
            (or_default 1 thickness)] st) ∧
    Track.drawPredicted (Track.set_state_pt s (Track.set_predict_pt p t0))
      color rad thickness st =
      (Ok tt,
       draw_on img
         [circle (num_value p.1, num_value p.2)
            (or_default 1 rad) (or_default GREEN color)
            (or_default 1 thickness)] st) ∧
    Track.drawCorrected (Track.set_state_pt s (Track.set_predict_pt p t0))
      color rad thickness st =
      (Ok tt,
       draw_on img
         [circle (num_value s.1, num_value s.2)
            (or_default 1 rad) (or_default GREEN color)
            (or_default 1 thickness)] st) ∧
    appended img
      [circle (cx, cy) (or_default 1 rad) (or_default GREEN color)
         (or_default 1 thickness)] st
      (draw_on img
         [circle (cx, cy) (or_default 1 rad) (or_default GREEN color)
            (or_default 1 thickness)] st).
Proof.
  intros Hx Hy Hw Hh.
  unfold Track.Track. rewrite Track_init_box. intros [= <-] Hst.
  eexists _, _.
  split; [by apply midpoint_value|]. split; [by apply midpoint_value|].
  split; [|split; [|split]].
  - unfold Track.draw. cbv zeta.
    py_step ltac:(apply lift_ok; reflexivity).
    py_step ltac:(apply lift_ok; reflexivity).
    by eapply dl_call_draw_on.
  - unfold Track.drawPredicted. cbv zeta.
    py_step ltac:(apply lift_ok; reflexivity).
    py_step ltac:(apply lift_ok; reflexivity).
    by eapply dl_call_draw_on.
  - unfold Track.drawCorrected. cbv zeta.
    py_step ltac:(apply lift_ok; reflexivity).
    py_step ltac:(apply lift_ok; reflexivity).
    by eapply dl_call_draw_on.
  - by eapply appended_draw_on.
Qed.

Lemma markers_draw_one_circle_witness :
  ∃ t0 cx cy,
    Track.Track 0 1%positive [10; 20; 5; -7] = Ok t0 ∧
    (cx == inject_Z 10 + inject_Z 5 / 2)%Q ∧
    (cy == inject_Z 20 + inject_Z (-7) / 2)%Q ∧
    Track.draw
      (Track.set_state_pt (PyInt 3, PyInt 4)
         (Track.set_predict_pt (PyFloat (21 # 2), PyInt 7) t0))
      None None None
      {[ 1%positive := {| size_tuple := (800, 600); layer := [] |} ]} =
    (Ok tt,
     draw_on 1%positive [circle (cx, cy) 1 GREEN 1]
       {[ 1%positive := {| size_tuple := (800, 600); layer := [] |} ]}) ∧
    Track.drawPredicted
      (Track.set_state_pt (PyInt 3, PyInt 4)
         (Track.set_predict_pt (PyFloat (21 # 2), PyInt 7) t0))
      None None None
      {[ 1%positive := {| size_tuple := (800, 600); layer := [] |} ]} =
    (Ok tt,
     draw_on 1%positive [circle (21 # 2, inject_Z 7) 1 GREEN 1]
       {[ 1%positive := {| size_tuple := (800, 600); layer := [] |} ]}).
Proof.
  unfold Track.Track. rewrite Track_init_box. eexists.
  match goal with
  | |- ∃ _ _, Ok ?t = _ ∧ _ =>
      destruct (markers_draw_one_circle 0 1%positive
                  {| size_tuple := (800, 600); layer := [] |}
                  10 20 5 (-7) t (PyFloat (21 # 2), PyInt 7)
                  (PyInt 3, PyInt 4) None None None
                  {[ 1%positive :=
                       {| size_tuple := (800, 600); layer := [] |} ]})
        as (cx & cy & Hcx & Hcy & Hd & Hp & _)
  end.
  - vm_compute. discriminate.
  - vm_compute. discriminate.
  - vm_compute. discriminate.
  - vm_compute. discriminate.
  - unfold Track.Track. apply Track_init_box.
  - reflexivity.
  - exists cx, cy. split; [reflexivity|]. split; [exact Hcx|].
    split; [exact Hcy|]. split; [exact Hd | exact Hp].
Defined.

(** ** Text overlays: arguments and failures *)

Lemma format_predicted a b :
  Format.pyformat "Predicted: x = %d  y = %d" [a; b] =
  Ok ("Predicted: x = " +:+ Format.str_int (shown_int a) +:+ "  y = "
      +:+ Format.str_int (shown_int b)).
Proof.
  destruct a, b; cbv -[Format.str_int String.append py_int];
    rewrite append_empty_r; reflexivity.
Qed.

Lemma format_corrected a b :
  Format.pyformat "Corrected: x = %d  y = %d" [a; b] =
  Ok ("Corrected: x = " +:+ Format.str_int (shown_int a) +:+ "  y = "
      +:+ Format.str_int (shown_int b)).
Proof.
  destruct a, b; cbv -[Format.str_int String.append py_int];
    rewrite append_empty_r; reflexivity.
Qed.

Lemma fixed_pos_ok img im st (p : list Z) :
  st !! img = Some im →
  (imgsize ← get_size_tuple img; mret p) st = (Ok p, st).
Proof.
  intros H. cbv [mbind Py_bind get_size_tuple mret Py_ret]. by rewrite H.
Qed.

Lemma default_pos_no_frame img st (k : Z * Z → Py (list Z)) :
  st !! img = None →
  (imgsize ← get_size_tuple img; k imgsize) st = (Raise AttributeError, st).
Proof.
  intros H. cbv [mbind Py_bind get_size_tuple]. by rewrite H.
Qed.

(** X13. The overlays of the predicted and of the corrected point write
    at the fixed positions [(5, 10)] and [(5, 40)], whatever the size of
    the frame, and print each coordinate with [%d]: an integer as it is, a
    floating point coordinate cut toward zero. *)
Theorem point_overlays_fixed_position_and_truncation (t : Track.t) img im
    (st : Store) pos color size p s :
  st !! img = Some im →
  Track.image t = Some img →
  Track.predict_pt t = Some p →
  Track.state_pt t = Some s →
  Track.showPredictedCoordinates t (pos_arg pos) color size st =
    (Ok tt,
     draw_on img
       [set_font_size (size_or size 16);
        text ("Predicted: x = " +:+ Format.str_int (shown_int p.1)
              +:+ "  y = " +:+ Format.str_int (shown_int p.2))
          (pos_or pos (5, 10)) (or_default GREEN color)] st) ∧
  Track.showCorrectedCoordinates t (pos_arg pos) color size st =
    (Ok tt,
     draw_on img
       [set_font_size (size_or size 16);
        text ("Corrected: x = " +:+ Format.str_int (shown_int s.1)
              +:+ "  y = " +:+ Format.str_int (shown_int s.2))
          (pos_or pos (5, 40)) (or_default GREEN color)] st).
Proof.
  intros Hst Himg Hp Hs. split.
  - unfold Track.showPredictedCoordinates. cbv zeta.
    py_step ltac:(py_attr Himg).
    py_step ltac:(apply if_not_pos_ok with (d := (5, 10));
                  apply fixed_pos_ok with (im := im), Hst).
    py_step ltac:(apply if_not_size_ok).
    py_step ltac:(py_attr Hp).
    py_step ltac:(apply lift_ok, format_predicted).
    py_step ltac:(py_draw Hst).
    erewrite dl_call_draw_on by frame_lookup Hst.
    by rewrite draw_on_app.
  - unfold Track.showCorrectedCoordinates. cbv zeta.
    py_step ltac:(py_attr Himg).
    py_step ltac:(apply if_not_pos_ok with (d := (5, 40));
                  apply fixed_pos_ok with (im := im), Hst).
    py_step ltac:(apply if_not_size_ok).
    py_step ltac:(py_attr Hs).
    py_step ltac:(apply lift_ok, format_corrected).
    py_step ltac:(py_draw Hst).
    erewrite dl_call_draw_on by frame_lookup Hst.
    by rewrite draw_on_app.
Qed.

Lemma point_overlays_fixed_position_and_truncation_witness :
  Track.showPredictedCoordinates
    (Track.set_state_pt (PyInt 0, PyInt 0)
       (Track.set_predict_pt (PyFloat (127 # 10), PyFloat (-39 # 10))
          (Track.set_image 1%positive Track.new)))
    PyNone None PyNone
    {[ 1%positive := {| size_tuple := (800, 600); layer := [] |} ]} =
  (Ok tt,
   {[ 1%positive :=
        {| size_tuple := (800, 600);
           layer := [set_font_size 16;
                     text "Predicted: x = 12  y = -3" [5; 10] GREEN] |} ]}).
Proof.
  destruct (point_overlays_fixed_position_and_truncation
              (Track.set_state_pt (PyInt 0, PyInt 0)
                 (Track.set_predict_pt (PyFloat (127 # 10), PyFloat (-39 # 10))
                    (Track.set_image 1%positive Track.new)))
              1%positive {| size_tuple := (800, 600); layer := [] |}
              {[ 1%positive := {| size_tuple := (800, 600); layer := [] |} ]}
              None None PyNone
              (PyFloat (127 # 10), PyFloat (-39 # 10)) (PyInt 0, PyInt 0))
    as [Hp _].
  - reflexivity.
  - reflexivity.
  - reflexivity.
  - reflexivity.
  - etransitivity; [exact Hp|]. vm_compute. reflexivity.
Defined.

(** X14. An argument that Python counts as false is taken as left out:
    with an empty position tuple and a font size of 0, each of the seven
    overlays behaves exactly as with no position and no size, so a font
    size of 0 cannot be asked for. *)
Theorem overlays_take_false_arguments_as_omitted (t : Track.t)
    (mf : MFTrack.t) color (st : Store) :
  Track.showCoordinates t (PyVal []) color (PyVal 0) st =
    Track.showCoordinates t PyNone color PyNone st ∧
  Track.showSizeRatio t (PyVal []) color (PyVal 0) st =
    Track.showSizeRatio t PyNone color PyNone st ∧
  Track.showPixelVelocity t (PyVal []) color (PyVal 0) st =
    Track.showPixelVelocity t PyNone color PyNone st ∧
  Track.showPixelVelocityRT t (PyVal []) color (PyVal 0) st =
    Track.showPixelVelocityRT t PyNone color PyNone st ∧
  Track.showPredictedCoordinates t (PyVal []) color (PyVal 0) st =
    Track.showPredictedCoordinates t PyNone color PyNone st ∧
  Track.showCorrectedCoordinates t (PyVal []) color (PyVal 0) st =
    Track.showCorrectedCoordinates t PyNone color PyNone st ∧
  MFTrack.showShift mf (PyVal []) color (PyVal 0) st =
    MFTrack.showShift mf PyNone color PyNone st.
Proof.
  unfold Track.showCoordinates, Track.showSizeRatio, Track.showPixelVelocity,
    Track.showPixelVelocityRT, Track.showPredictedCoordinates,
    Track.showCorrectedCoordinates, MFTrack.showShift.
  cbv [if_not truthy_tuple truthy_int Z.eqb negb].
  repeat split.
Qed.

(** X15. A position tuple with a single element is passed on as it is by
    the overlays that write one line, but the three overlays with a
    caption index it for the caption: they set the font size, write their
    first line, then raise [IndexError], leaving the two calls drawn. *)
Theorem caption_overlays_need_two_coordinates (t : Track.t) (mf : MFTrack.t)
    img im (st : Store) px color size cx cy v vrt sh s_vel s_rt s_shift :
  st !! img = Some im →
  Track.image t = Some img →
  Track.x t = Some cx →
  Track.y t = Some cy →
  Track.vel t = Some v →
  Track.rt_vel t = Some vrt →
  Track.image (MFTrack.base mf) = Some img →
  MFTrack.shift mf = Some sh →
  Format.pyformat "Vx = %.2f Vy = %.2f" [v.1; v.2] = Ok s_vel →
  Format.pyformat "Vx = %.2f Vy = %.2f" [vrt.1; vrt.2] = Ok s_rt →
  Format.pyformat "Shift = %.2f" [sh] = Ok s_shift →
  Track.showCoordinates t (PyVal [px]) color size st =
    (Ok tt,
     draw_on img
       [set_font_size (size_or size 16);
        text ("x = " +:+ Format.str_int (py_int cx) +:+ "  y = "
              +:+ Format.str_int (py_int cy)) [px]
          (or_default GREEN color)] st) ∧
  Track.showPixelVelocity t (PyVal [px]) color size st =
    (Raise IndexError,
     draw_on img
       [set_font_size (size_or size 16);
        text s_vel [px] (or_default GREEN color)] st) ∧
  Track.showPixelVelocityRT t (PyVal [px]) color size st =
    (Raise IndexError,
     draw_on img
       [set_font_size (size_or size 16);
        text s_rt [px] (or_default GREEN color)] st) ∧
  MFTrack.showShift mf (PyVal [px]) color size st =
    (Raise IndexError,
     draw_on img
       [set_font_size (size_or size 16);
        text s_shift [px] (or_default GREEN color)] st).
Proof.
  intros Hst Himg Hx Hy Hv Hvrt Hmf Hsh Hs_vel Hs_rt Hs_shift.
  split; [|split; [|split]].
  - unfold Track.showCoordinates. cbv zeta.
    py_step ltac:(py_attr Himg).
    py_step ltac:(reflexivity).
    py_step ltac:(apply if_not_size_ok).
    py_step ltac:(py_attr Hx).
    py_step ltac:(py_attr Hy).
    py_step ltac:(apply lift_ok, format_coordinates).
    py_step ltac:(py_draw Hst).
    erewrite dl_call_draw_on by frame_lookup Hst.
    by rewrite draw_on_app.
  - unfold Track.showPixelVelocity. cbv zeta.
    py_step ltac:(py_attr Himg).
    py_step ltac:(py_attr Hv).
    py_step ltac:(reflexivity).
    py_step ltac:(apply if_not_size_ok).
    py_step ltac:(apply lift_ok, Hs_vel).
    py_step ltac:(py_draw Hst).
    py_step ltac:(py_draw Hst).
    py_step ltac:(apply lift_ok; reflexivity).
    erewrite Py_bind_raise by reflexivity.
    by rewrite draw_on_app.
  - unfold Track.showPixelVelocityRT. cbv zeta.
    py_step ltac:(py_attr Himg).
    py_step ltac:(py_attr Hvrt).
    py_step ltac:(reflexivity).
    py_step ltac:(apply if_not_size_ok).
    py_step ltac:(apply lift_ok, Hs_rt).
    py_step ltac:(py_draw Hst).
    py_step ltac:(py_draw Hst).
    py_step ltac:(apply lift_ok; reflexivity).
    erewrite Py_bind_raise by reflexivity.
    by rewrite draw_on_app.
  - unfold MFTrack.showShift. cbv zeta.
    py_step ltac:(py_attr Hmf).
    py_step ltac:(py_attr Hsh).
    py_step ltac:(reflexivity).
    py_step ltac:(apply if_not_size_ok).
    py_step ltac:(apply lift_ok, Hs_shift).
    py_step ltac:(py_draw Hst).
    py_step ltac:(py_draw Hst).
    py_step ltac:(apply lift_ok; reflexivity).
    erewrite Py_bind_raise by reflexivity.
    by rewrite draw_on_app.
Qed.

Lemma caption_overlays_need_two_coordinates_witness :
  ∃ t,
    Track.Track 0 1%positive [100; 100; 50; 50] = Ok t ∧
    Track.showPixelVelocity t (PyVal [7]) None PyNone
      {[ 1%positive := {| size_tuple := (800, 600); layer := [] |} ]} =
    (Raise IndexError,
     draw_on 1%positive
       [set_font_size 16; text "Vx = 0.00 Vy = 0.00" [7] GREEN]
       {[ 1%positive := {| size_tuple := (800, 600); layer := [] |} ]}).
Proof.
  unfold Track.Track. rewrite Track_init_box. eexists.
  split; [reflexivity|].
  match goal with
  | |- Track.showPixelVelocity ?t _ _ _ ?st = _ =>
      destruct (caption_overlays_need_two_coordinates t
                  {| MFTrack.base := t; MFTrack.shift := Some (PyInt 0) |}
                  1%positive {| size_tuple := (800, 600); layer := [] |} st
                  7 None PyNone (250 # 2) (250 # 2) (PyInt 0, PyInt 0)
                  (PyInt 0, PyInt 0) (PyInt 0)
                  "Vx = 0.00 Vy = 0.00" "Vx = 0.00 Vy = 0.00" "Shift = 0.00")
        as (_ & Hvel & _)
  end; [(vm_compute; reflexivity) .. | exact Hvel].
Defined.

(** X16. When the frame reference of a track names no frame, every
    overlay called without a position raises [AttributeError] as soon as
    it asks for the size of the frame, and [showCoordinates] raises it for
    any position; nothing is drawn anywhere. *)
Theorem overlays_without_frame (t : Track.t) (mf : MFTrack.t) img
    (st : Store) pos color size cx cy v vrt sh :
  st !! img = None →
  Track.image t = Some img →
  Track.x t = Some cx →
  Track.y t = Some cy →
  Track.vel t = Some v →
  Track.rt_vel t = Some vrt →
  Track.image (MFTrack.base mf) = Some img →
  MFTrack.shift mf = Some sh →
  Track.showCoordinates t PyNone color size st = (Raise AttributeError, st) ∧
  Track.showSizeRatio t PyNone color size st = (Raise AttributeError, st) ∧
  Track.showPixelVelocity t PyNone color size st
    = (Raise AttributeError, st) ∧
  Track.showPixelVelocityRT t PyNone color size st
    = (Raise AttributeError, st) ∧
  Track.showPredictedCoordinates t PyNone color size st
    = (Raise AttributeError, st) ∧
  Track.showCorrectedCoordinates t PyNone color size st
    = (Raise AttributeError, st) ∧
  MFTrack.showShift mf PyNone color size st = (Raise AttributeError, st) ∧
  Track.showCoordinates t (pos_arg (Some pos)) color size st
    = (Raise AttributeError, st).
Proof.
  intros Hst Himg Hx Hy Hv Hvrt Hmf Hsh.
  repeat split.
  - unfold Track.showCoordinates. cbv zeta.
    py_step ltac:(py_attr Himg).
    erewrite Py_bind_raise; [reflexivity|]. by apply default_pos_no_frame.
  - unfold Track.showSizeRatio. cbv zeta.
    py_step ltac:(py_attr Himg).
    erewrite Py_bind_raise; [reflexivity|]. by apply default_pos_no_frame.
  - unfold Track.showPixelVelocity. cbv zeta.
    py_step ltac:(py_attr Himg). py_step ltac:(py_attr Hv).
    erewrite Py_bind_raise; [reflexivity|]. by apply default_pos_no_frame.
  - unfold Track.showPixelVelocityRT. cbv zeta.
    py_step ltac:(py_attr Himg). py_step ltac:(py_attr Hvrt).
    erewrite Py_bind_raise; [reflexivity|]. by apply default_pos_no_frame.
  - unfold Track.showPredictedCoordinates. cbv zeta.
    py_step ltac:(py_attr Himg).
    erewrite Py_bind_raise; [reflexivity|]. by apply default_pos_no_frame.
  - unfold Track.showCorrectedCoordinates. cbv zeta.
    py_step ltac:(py_attr Himg).
    erewrite Py_bind_raise; [reflexivity|]. by apply default_pos_no_frame.
  - unfold MFTrack.showShift. cbv zeta.
    py_step ltac:(py_attr Hmf). py_step ltac:(py_attr Hsh).
    erewrite Py_bind_raise; [reflexivity|]. by apply default_pos_no_frame.
  - unfold Track.showCoordinates. cbv zeta. destruct pos as [px py].
    py_step ltac:(py_attr Himg).
    py_step ltac:(reflexivity).
    py_step ltac:(apply if_not_size_ok).
    py_step ltac:(py_attr Hx).
    py_step ltac:(py_attr Hy).
    py_step ltac:(apply lift_ok, format_coordinates).
    erewrite Py_bind_raise; [reflexivity|]. by apply dl_call_no_frame.
Qed.

Lemma overlays_without_frame_witness :
  ∃ t,
    Track.Track 0 1%positive [100; 100; 50; 50] = Ok t ∧
    Track.showCoordinates t PyNone None PyNone ∅
      = (Raise AttributeError, ∅) ∧
    Track.showSizeRatio t PyNone None PyNone ∅ = (Raise AttributeError, ∅).
Proof.
  unfold Track.Track. rewrite Track_init_box. eexists.
  split; [reflexivity|].
  match goal with
  | |- Track.showCoordinates ?t _ _ _ _ = _ ∧ _ =>
      destruct (overlays_without_frame t
                  {| MFTrack.base := t; MFTrack.shift := Some (PyInt 0) |}
                  1%positive ∅ (0, 0) None PyNone (250 # 2) (250 # 2)
                  (PyInt 0, PyInt 0) (PyInt 0, PyInt 0) (PyInt 0))
        as (H1 & H2 & _)
  end; [reflexivity .. | split; [exact H1 | exact H2]].
Defined.

(** X17. What the overlays show right after construction, for every box
    with coordinates of magnitude at most [2^51] and every frame: the
    center of the box with each coordinate cut toward zero by [%d], a
    size ratio of ["size = 1.000000"], velocities of
    ["Vx = 0.00 Vy = 0.00"] in pixels per frame and per second, and
    predicted and corrected points at the origin; each line at its own
    default position, the captions one font size (16) below their line. *)
Theorem overlays_of_a_fresh_track clock img im x y w h t (st : Store) :
  Z.abs x ≤ 2 ^ 51 → Z.abs y ≤ 2 ^ 51 →
  Z.abs w ≤ 2 ^ 51 → Z.abs h ≤ 2 ^ 51 →
  Track.Track clock img [x; y; w; h] = Ok t →
  st !! img = Some im →
  Track.showCoordinates t PyNone None PyNone st =
    (Ok tt,
     draw_on img
       [set_font_size 16;
        text ("x = " +:+ Format.str_int ((2 * x + w) ÷ 2) +:+ "  y = "
              +:+ Format.str_int ((2 * y + h) ÷ 2))
          [(size_tuple im).1 - 120; 10] GREEN] st) ∧
  Track.showSizeRatio t PyNone None PyNone st =
    (Ok tt,
     draw_on img
       [set_font_size 16;
        text "size = 1.000000" [(size_tuple im).1 - 120; 30] GREEN] st) ∧
  Track.showPixelVelocity t PyNone None PyNone st =
    (Ok tt,
     draw_on img
       [set_font_size 16;
        text "Vx = 0.00 Vy = 0.00" [(size_tuple im).1 - 120; 90] GREEN;
        text "in pixels/frame" [(size_tuple im).1 - 120; 90 + 16] GREEN]
       st) ∧
  Track.showPixelVelocityRT t PyNone None PyNone st =
    (Ok tt,
     draw_on img
       [set_font_size 16;
        text "Vx = 0.00 Vy = 0.00" [(size_tuple im).1 - 120; 50] GREEN;
        text "in pixels/second" [(size_tuple im).1 - 120; 50 + 16] GREEN]
       st) ∧
  Track.showPredictedCoordinates t PyNone None PyNone st =
    (Ok tt,
     draw_on img
       [set_font_size 16; text "Predicted: x = 0  y = 0" [5; 10] GREEN]
       st) ∧
  Track.showCorrectedCoordinates t PyNone None PyNone st =
    (Ok tt,
     draw_on img
       [set_font_size 16; text "Corrected: x = 0  y = 0" [5; 40] GREEN]
       st).
Proof.
  intros Hx Hy Hw Hh.
  unfold Track.Track. rewrite Track_init_box. intros [= <-] Hst.
  split; [|split; [|split; [|split; [|split]]]].
  - rewrite <- (midpoint_shown x w Hx Hw), <- (midpoint_shown y h Hy Hh).
    apply (showCoordinates_spec img im st Hst None None PyNone);
      reflexivity.
  - apply (showSizeRatio_spec img im st Hst None None PyNone _ (PyInt 1));
      [reflexivity | reflexivity | vm_compute; reflexivity].
  - apply (showPixelVelocity_spec img im st Hst None None PyNone _
             (PyInt 0, PyInt 0));
      [reflexivity | reflexivity | vm_compute; reflexivity].
  - apply (showPixelVelocityRT_spec img im st Hst None None PyNone _
             (PyInt 0, PyInt 0));
      [reflexivity | reflexivity | vm_compute; reflexivity].
  - unfold Track.showPredictedCoordinates. cbv zeta.
    py_step ltac:(apply lift_ok; reflexivity).
    py_step ltac:(apply fixed_pos_ok with (im := im), Hst).
    py_step ltac:(reflexivity).
    py_step ltac:(apply lift_ok; reflexivity).
    py_step ltac:(apply lift_ok; vm_compute; reflexivity).
    py_step ltac:(py_draw Hst).
    erewrite dl_call_draw_on by frame_lookup Hst.
    by rewrite draw_on_app.
  - unfold Track.showCorrectedCoordinates. cbv zeta.
    py_step ltac:(apply lift_ok; reflexivity).
    py_step ltac:(apply fixed_pos_ok with (im := im), Hst).
    py_step ltac:(reflexivity).
    py_step ltac:(apply lift_ok; reflexivity).
    py_step ltac:(apply lift_ok; vm_compute; reflexivity).
    py_step ltac:(py_draw Hst).
    erewrite dl_call_draw_on by frame_lookup Hst.
    by rewrite draw_on_app.
Qed.

Lemma overlays_of_a_fresh_track_witness :
  ∃ t,
    Track.Track 0 1%positive [-10; -20; 5; 7] = Ok t ∧
    Track.showCoordinates t PyNone None PyNone
      {[ 1%positive := {| size_tuple := (800, 600); layer := [] |} ]} =
    (Ok tt,
     draw_on 1%positive
       [set_font_size 16; text "x = -7  y = -16" [680; 10] GREEN]
       {[ 1%positive := {| size_tuple := (800, 600); layer := [] |} ]}).
Proof.
  unfold Track.Track. rewrite Track_init_box. eexists.
  split; [reflexivity|].
  match goal with
  | |- Track.showCoordinates ?t _ _ _ ?st = _ =>
      destruct (overlays_of_a_fresh_track 0 1%positive
                  {| size_tuple := (800, 600); layer := [] |}
                  (-10) (-20) 5 7 t st) as (Hc & _)
  end.
  - vm_compute. discriminate.
  - vm_compute. discriminate.
  - vm_compute. discriminate.
  - vm_compute. discriminate.
  - unfold Track.Track. apply Track_init_box.
  - reflexivity.
  - exact Hc.
Defined.
